(** * Car reliability prediction engine: a shallow embedding

    The development follows the Python sources of the repository:

    - [src/nlp/sentiment.py]            (module [Sentiment])
    - [src/features/preprocess.py]      (module [Preprocess])
    - [src/nlp/complaint_analysis.py]   (module [ComplaintAnalysis])
    - [src/models/predict.py]           (module [Predict])

    Conventions of the embedding.

    - A Python [str] is a [string]: a sequence of code points below 256.
      Whitespace and case mapping are those of Python on that range.
    - A Python [float] is a rational number ([Q]): arithmetic is exact, so
      binary64 rounding error, infinities and NaN are abstracted away.
      Equality of floats is [Qeq].  Module [Binary64] shows that for the
      threshold comparisons of [_to_risk_band] nothing is lost: on every
      finite binary64 value the comparison against the literal decides the
      comparison against the decimal constant.
    - [round(x, 2)] is round-half-even to hundredths, [int(x)] truncates
      towards zero.
    - A [pd.Series] read with [.get(key, default)] is a record of optional
      fields; a [pd.DataFrame] is a list of rows together with the presence
      or absence of the label column.
    - Library calls whose result is not determined by the repository
      (the fitted classifier, scikit-learn's word tokenizer, numpy's
      standard deviation) are section variables. *)

From Stdlib Require Import ZArith QArith Qround Qabs String Ascii List Bool Lia Lqa.
From Stdlib Require Import Floats Sorted.
From Stdlib Require Uint63.
From stdpp Require Import gmap strings list pretty.

Local Open Scope Z_scope.

(** ** Python numerics over [Q] *)

Module PyNum.

(** [round_half_even x]: the integer nearest to [x], ties to the even one. *)
Definition round_half_even (x : Q) : Z :=
  let n := Qnum x in
  let d := Zpos (Qden x) in
  let q := n / d in
  let r := n mod d in
  match (2 * r ?= d) with
  | Lt => q
  | Gt => q + 1
  | Eq => if Z.even q then q else q + 1
  end.

(** [round(x, 2)] *)
Definition round2 (x : Q) : Q := round_half_even (x * 100) # 100.

(** [int(x)] for a float [x]: truncation towards zero. *)
Definition py_int (x : Q) : Z := Z.quot (Qnum x) (Zpos (Qden x)).

(** [max(a, b)] and [min(a, b)] as the builtins compute them: the first
    argument is kept unless the second is strictly greater (smaller). *)
Definition py_max (a b : Q) : Q := if Qle_bool b a then a else b.
Definition py_min (a b : Q) : Q := if Qle_bool a b then a else b.

Definition py_maxZ (a b : Z) : Z := if b <=? a then a else b.

End PyNum.

(** ** src/nlp/sentiment.py *)

Module Sentiment.

Local Open Scope string_scope.

Definition POSITIVE_WORDS : gset string :=
  {[ "reliable"; "smooth"; "satisfied"; "comfortable"; "quiet"; "refined";
     "responsive" ]}.

Definition NEGATIVE_WORDS : gset string :=
  {[ "frustrating"; "disappointed"; "unsafe"; "annoying"; "expensive";
     "noisy"; "rough"; "lag"; "stall"; "failure" ]}.

Record SentimentScores := mkSentimentScores {
  positive : Z;
  negative : Z;
  net : Z
}.

(** Code points for which [str.isspace] holds (below 256): TAB, LF, VT, FF,
    CR, FS, GS, RS, US, SPACE, NEL and NBSP. *)
Definition is_space (c : ascii) : bool :=
  let n := N_of_ascii c in
  ((9 <=? n) && (n <=? 13) || (28 <=? n) && (n <=? 32)
   || (n =? 133) || (n =? 160))%N.

(** [starts_word s]: [s] begins with a character that is not whitespace. *)
Definition starts_word (s : string) : bool :=
  match s with
  | String c _ => negb (is_space c)
  | EmptyString => false
  end.

(** [text.split()]: maximal runs of non-whitespace characters, in order. *)
Fixpoint split (s : string) : list string :=
  match s with
  | EmptyString => []
  | String c s' =>
      if is_space c then split s'
      else if starts_word s' then
        match split s' with
        | w :: ws => String c w :: ws
        | [] => [String c EmptyString]
        end
      else String c EmptyString :: split s'
  end.

Definition in_chars (chars : string) (c : ascii) : bool :=
  existsb (Ascii.eqb c) (list_ascii_of_string chars).

(** [word.lstrip(chars)], [word.rstrip(chars)] and [word.strip(chars)] *)
Fixpoint lstrip (chars : string) (s : string) : string :=
  match s with
  | String c s' => if in_chars chars c then lstrip chars s' else s
  | EmptyString => EmptyString
  end.

Fixpoint rstrip (chars : string) (s : string) : string :=
  match s with
  | EmptyString => EmptyString
  | String c s' =>
      match rstrip chars s' with
      | EmptyString => if in_chars chars c then EmptyString else String c EmptyString
      | r => String c r
      end
  end.

Definition strip (chars : string) (s : string) : string :=
  rstrip chars (lstrip chars s).

(** [str.lower] on one code point below 256: A-Z and the Latin-1 capitals
    (0xC0-0xDE except the multiplication sign 0xD7) move up by 32. *)
Definition lower_char (c : ascii) : ascii :=
  let n := N_of_ascii c in
  if ((65 <=? n) && (n <=? 90)
      || (192 <=? n) && (n <=? 222) && negb (n =? 215))%N
  then ascii_of_N (n + 32) else c.

Fixpoint lower (s : string) : string :=
  match s with
  | EmptyString => EmptyString
  | String c s' => String (lower_char c) (lower s')
  end.

(** The comprehension's element: [word.strip(".,!?").lower()] *)
Definition normalize (word : string) : string := lower (strip ".,!?" word).

(** [{word.strip(".,!?").lower() for word in text.split()}] *)
Definition words_of (text : string) : gset string :=
  list_to_set (map normalize (split text)).

Definition score_text (text : string) : SentimentScores :=
  let words := words_of text in
  let pos := Z.of_nat (size (words ∩ POSITIVE_WORDS)) in
  let neg := Z.of_nat (size (words ∩ NEGATIVE_WORDS)) in
  {| positive := pos; negative := neg; net := pos - neg |}.

(** The scorer as the specification words it: every token counts, and only
    trailing punctuation is stripped.  Used to compare with [score_text]. *)
Definition normalize_trailing (word : string) : string :=
  lower (rstrip ".,!?" word).

Definition count_tokens (lexicon : gset string) (tokens : list string) : Z :=
  Z.of_nat (length (filter (λ w, w ∈ lexicon) tokens)).

Definition score_text_per_token (text : string) : SentimentScores :=
  let tokens := map normalize_trailing (split text) in
  let pos := count_tokens POSITIVE_WORDS tokens in
  let neg := count_tokens NEGATIVE_WORDS tokens in
  {| positive := pos; negative := neg; net := pos - neg |}.

(** Every character of the string satisfies [P]. *)
Fixpoint string_forall (P : ascii → bool) (s : string) : bool :=
  match s with
  | EmptyString => true
  | String c s' => P c && string_forall P s'
  end.

End Sentiment.

(** ** Outcomes of calls that may raise *)

Inductive exn :=
| ZeroDivisionError
| ValueError (msg : string)
| IndexError
| OverflowError
| KeyError (key : string)
| ReferenceError.

Inductive outcome (A : Type) :=
| Return (a : A)
| Raise (e : exn).
Arguments Return {A} a.
Arguments Raise {A} e.

(** ** src/features/preprocess.py *)

Module Preprocess.

Import PyNum.
Local Open Scope string_scope.
Local Open Scope Q_scope.

Definition CURRENT_YEAR : Z := 2024.

Definition COST_FACTORS : gmap string Q :=
  list_to_map
    [ ("oil change", 120);
      ("brake pad replacement", 380);
      ("software update", 160);
      ("battery inspection", 90);
      ("tire rotation", 75) ].

(** The same table, entry by entry, with the default of
    [COST_FACTORS.get(action, 150)]. *)
Definition cost_table (action : string) : Q :=
  if String.eqb action "oil change" then 120
  else if String.eqb action "brake pad replacement" then 380
  else if String.eqb action "software update" then 160
  else if String.eqb action "battery inspection" then 90
  else if String.eqb action "tire rotation" then 75
  else 150.

(** One row of the raw dataset (the columns of the Vehicle Record). *)
Record VehicleRecord := mkVehicleRecord {
  make : string;
  model : string;
  year : Z;
  mileage : Q;
  avg_trip_length_miles : Q;
  maintenance_events : Q;
  past_failures : Q;
  severity_score : Q;
  maintenance_cost_last_year : Q;
  fuel_cost_last_year : Q;
  complaint_text : string;
  maintenance_action : string
}.

(** A frame: its rows, with the column [has_mechanical_issue] either absent
    or holding one value per row. *)
Inductive DataFrame (R : Type) :=
| Unlabelled (rows : list R)
| Labelled (rows : list (R * Q)).
Arguments Unlabelled {R} rows.
Arguments Labelled {R} rows.

Definition df_rows {R} (df : DataFrame R) : list R :=
  match df with
  | Unlabelled rows => rows
  | Labelled rows => map fst rows
  end.


(** The columns added by [engineer_domain_features]. *)
Record Engineered := mkEngineered {
  raw : VehicleRecord;
  car_age : Z;
  total_cost_last_year : Q;
  estimated_next_year_cost : Q;
  ownership_cost_score : Q
}.

(** [series.clip(lower=lo)], one element *)
Definition clip_lower (lo x : Q) : Q := if Qle_bool lo x then x else lo.

(** One row of [engineer_domain_features]; [issue] is the row's element of
    [issue_series]. *)
Definition engineer_row (r : VehicleRecord) (issue : Q) : Engineered :=
  let total := maintenance_cost_last_year r + fuel_cost_last_year r in
  {| raw := r;
     car_age := (CURRENT_YEAR - year r)%Z;
     total_cost_last_year := total;
     estimated_next_year_cost := total * (1.05 + 0.02 * issue);
     ownership_cost_score := total / clip_lower 1 (avg_trip_length_miles r) |}.

Definition engineer_domain_features (df : DataFrame VehicleRecord)
  : DataFrame Engineered :=
  match df with
  | Unlabelled rows => Unlabelled (map (λ r, engineer_row r 0) rows)
  | Labelled rows =>
      Labelled (map (λ rl, (engineer_row (fst rl) (snd rl), snd rl)) rows)
  end.

(** The row ([pd.Series]) that the cost projector and the timeline
    synthesizer read with [row.get(key, default)]: a key may be missing. *)
Record Row := mkRow {
  row_maintenance_action : option string;
  row_risk_score : option Q;
  row_maintenance_cost_last_year : option Q;
  row_total_cost_last_year : option Q
}.

Record CostProjection := mkCostProjection {
  maintenance_projection : Q;
  fuel_cost_projection : Q;
  depreciation_estimate : Q;
  total_projection : Q
}.

(** The locals of [compute_cost_of_ownership], before rounding. *)
Definition base_maintenance (row : Row) : Q :=
  default 150 (COST_FACTORS !! default "" (row_maintenance_action row)).

Definition risk_multiplier (row : Row) : Q :=
  1 + 0.35 * default 0.2 (row_risk_score row).

Definition maintenance_projection_raw (row : Row) : Q :=
  (default 600 (row_maintenance_cost_last_year row) + base_maintenance row)
  * risk_multiplier row.

Definition fuel_cost_projection_raw
  (annual_mileage fuel_price_per_gallon efficiency_mpg : Q) : Q :=
  (annual_mileage / efficiency_mpg) * fuel_price_per_gallon.

Definition depreciation_raw (row : Row) : Q :=
  py_max 500 (0.12 * default 1500 (row_total_cost_last_year row)).

Definition compute_cost_of_ownership (row : Row)
  (annual_mileage fuel_price_per_gallon efficiency_mpg : Q)
  : outcome CostProjection :=
  if Qeq_bool efficiency_mpg 0 then Raise ZeroDivisionError
  else
    let maintenance_projection := maintenance_projection_raw row in
    let fuel_cost_projection :=
      fuel_cost_projection_raw annual_mileage fuel_price_per_gallon
        efficiency_mpg in
    let depreciation := depreciation_raw row in
    Return
      {| maintenance_projection := round2 maintenance_projection;
         fuel_cost_projection := round2 fuel_cost_projection;
         depreciation_estimate := round2 depreciation;
         total_projection :=
           round2 (maintenance_projection + fuel_cost_projection
                   + depreciation) |}.

(** The call with the keyword defaults
    [annual_mileage=12000, fuel_price_per_gallon=3.5, efficiency_mpg=26]. *)
Definition compute_cost_of_ownership_defaults (row : Row)
  : outcome CostProjection :=
  compute_cost_of_ownership row 12000 3.5 26.

Record Milestone := mkMilestone {
  timeframe : string;
  action : string
}.

Definition interval_months_of (risk_score : Q) : Z :=
  let base_interval := 6%Z in
  let compression := 1 - py_min (py_max risk_score 0) 0.95 * 0.4 in
  py_maxZ 3 (py_int (inject_Z base_interval * compression)).

Definition generate_maintenance_timeline (row : Row) : list Milestone :=
  let risk_score := default 0.25 (row_risk_score row) in
  let interval_months := interval_months_of risk_score in
  let milestones :=
    [ {| timeframe := pretty interval_months ++ " months";
         action := "Comprehensive inspection & fluid checks" |};
      {| timeframe := pretty (interval_months * 2)%Z ++ " months";
         action := "Predictive component diagnostics" |};
      {| timeframe := pretty (interval_months * 3)%Z ++ " months";
         action := "System software updates & alignment" |} ] in
  if negb (Qle_bool risk_score 0.6)
  then milestones ++
       [ {| timeframe := "Next 30 days";
            action := "Schedule reliability assessment with specialist" |} ]
  else milestones.








End Preprocess.

(** ** src/nlp/complaint_analysis.py *)

Module ComplaintAnalysis.

Import PyNum Preprocess.
Local Open Scope string_scope.
Local Open Scope Q_scope.

Record Pattern := mkPattern {
  pattern : string;
  weighted_score : Q
}.

(** [" ".join(tokens)] *)
Fixpoint space_join (tokens : list string) : string :=
  match tokens with
  | [] => ""
  | [w] => w
  | w :: ws => w ++ " " ++ space_join ws
  end.

(** All slices [tokens[i : i + n]] of length [n], by increasing [i]. *)
Fixpoint windows (n : nat) (tokens : list string) : list (list string) :=
  match tokens with
  | [] => []
  | _ :: tl =>
      if (n <=? length tokens)%nat then take n tokens :: windows n tl else []
  end.

(** The n-grams scikit-learn's analyzer builds from the words of a document,
    for [n] from [min_n] to [max_n]. *)
Definition word_ngrams (min_n max_n : nat) (tokens : list string)
  : list string :=
  flat_map (λ n, map space_join (windows n tokens))
           (seq min_n (max_n + 1 - min_n)).

(** Stable sort of terms by code points, as [sorted] orders a vocabulary. *)
Fixpoint insert_term (t : string) (l : list string) : list string :=
  match l with
  | [] => [t]
  | u :: l' => if String.leb t u then t :: l else u :: insert_term t l'
  end.

Definition sort_terms (l : list string) : list string :=
  foldr insert_term [] l.

(** [Counter.most_common]: by decreasing score, equal scores in insertion
    order. *)
Fixpoint insert_scored (x : string * Q) (l : list (string * Q))
  : list (string * Q) :=
  match l with
  | [] => [x]
  | y :: l' =>
      if Qle_bool (snd y) (snd x) then x :: l else y :: insert_scored x l'
  end.

Definition most_common (top_n : nat) (counter : list (string * Q))
  : list (string * Q) :=
  take top_n (foldr insert_scored [] counter).

Definition mean (l : list Q) : Q :=
  foldr Qplus 0 l / inject_Z (Z.of_nat (length l)).

Section Miner.

(** scikit-learn's word analysis of one document: lower-casing, the default
    token pattern and the removal of English stop words. *)
Variable analyze_words : string → list string.

(** [ndarray.std]: the population standard deviation. *)
Variable std : list Q → Q.

Definition document_frequency (term : string) (docs : list (list string))
  : nat :=
  length (filter (λ d, term ∈ d) docs).

Definition term_count (term : string) (docs : list (list string)) : nat :=
  length (filter (λ t, t = term) (concat docs)).

(** [CountVectorizer(ngram_range=..., stop_words="english", min_df=2)
    .fit_transform(corpus)] followed by the column sums: the vocabulary is
    collected over the documents, the call fails when it is empty, when
    the corpus has fewer documents than [min_df], or when no term occurs
    in [min_df] documents; the terms kept come in sorted order. *)
Definition _tokenize_phrases (corpus : list string) (ngram_range : nat * nat)
  : outcome (list (string * Q)) :=
  let min_df := 2%nat in
  let docs :=
    map (λ doc, word_ngrams (fst ngram_range) (snd ngram_range)
                  (analyze_words doc)) corpus in
  let vocabulary := remove_dups (concat docs) in
  match vocabulary with
  | [] =>
      Raise (ValueError
        "empty vocabulary; perhaps the documents only contain stop words")
  | _ =>
      if (length docs <? min_df)%nat
      then Raise (ValueError "max_df corresponds to < documents than min_df")
      else
        match filter (λ t, (min_df ≤ document_frequency t docs)%nat)
                     vocabulary with
        | [] =>
            Raise (ValueError
              "After pruning, no terms remain. Try a lower min_df or a higher max_df.")
        | kept =>
            Return (map (λ t, (t, inject_Z (Z.of_nat (term_count t docs))))
                        (sort_terms kept))
        end
  end.

Definition identify_common_failure_patterns
  (df : DataFrame VehicleRecord) (top_n : nat) : outcome (list Pattern) :=
  match df_rows df with
  | [] => Return []
  | rows =>
      match _tokenize_phrases (map complaint_text rows) (2%nat, 3%nat) with
      | Raise e => Raise e
      | Return counter =>
          let severity := map severity_score rows in
          let weighted_counts :=
            map (λ pc, (fst pc,
                        snd pc * (mean severity / py_max (std severity) 0.5)))
                counter in
          Return
            (map (λ ps, {| pattern := fst ps;
                           weighted_score := round2 (snd ps) |})
                 (most_common top_n weighted_counts))
      end
  end.

(** The 2- and 3-word phrases of every complaint of a frame. *)
Definition phrases_of (df : DataFrame VehicleRecord) : list (list string) :=
  map (λ r, word_ngrams 2 3 (analyze_words (complaint_text r))) (df_rows df).

End Miner.

End ComplaintAnalysis.

(** ** src/models/predict.py *)

Module Predict.

Import PyNum Preprocess.
Local Open Scope string_scope.
Local Open Scope Q_scope.

(** A row after [append_sentiment_scores]. *)
Record Enriched := mkEnriched {
  engineered : Engineered;
  sentiment_positive : Z;
  sentiment_negative : Z;
  sentiment_net : Z
}.

Definition enrich_row (e : Engineered) : Enriched :=
  let scores := Sentiment.score_text (complaint_text (raw e)) in
  {| engineered := e;
     sentiment_positive := Sentiment.positive scores;
     sentiment_negative := Sentiment.negative scores;
     sentiment_net := Sentiment.net scores |}.

Definition append_sentiment_scores (df : DataFrame Engineered)
  : DataFrame Enriched :=
  match df with
  | Unlabelled rows => Unlabelled (map enrich_row rows)
  | Labelled rows => Labelled (map (λ rl, (enrich_row (fst rl), snd rl)) rows)
  end.

Record PredictionResult := mkPredictionResult {
  probability : Q;
  risk_band : string;
  cost_projection : CostProjection;
  maintenance_timeline : list Milestone
}.

Definition _to_risk_band (probability : Q) : string :=
  if Qle_bool 0.65 probability then "High"
  else if Qle_bool 0.4 probability then "Moderate"
  else "Low".

(** [ReliabilityPredictor._prepare_frame], on the frame that
    [pd.DataFrame(list(records))] builds. *)
Definition _prepare_frame (df : DataFrame VehicleRecord) : DataFrame Enriched :=
  append_sentiment_scores (engineer_domain_features df).

(** A record handed to [predict]: the raw fields, and the outcome label when
    the caller's mapping carries it. *)
Definition InputRecord : Type := VehicleRecord * option Q.

(** [pd.DataFrame([record])] *)
Definition frame_of_record (record : InputRecord) : DataFrame VehicleRecord :=
  match snd record with
  | None => Unlabelled [fst record]
  | Some label => Labelled [(fst record, label)]
  end.

(** [frame.iloc[0]] after [frame["risk_score"] = proba]: every key that the
    cost projector and the timeline synthesizer read is present. *)
Definition iloc0_with_risk (frame : DataFrame Enriched) (proba : Q)
  : outcome Row :=
  match df_rows frame with
  | [] => Raise IndexError
  | e :: _ =>
      let r := raw (engineered e) in
      Return
        {| row_maintenance_action := Some (maintenance_action r);
           row_risk_score := Some proba;
           row_maintenance_cost_last_year := Some (maintenance_cost_last_year r);
           row_total_cost_last_year :=
             Some (total_cost_last_year (engineered e)) |}
  end.

Section Engine.

(** The persisted scikit-learn pipeline, and
    [float(pipeline.predict_proba(frame)[0, 1])]: the class-1 probability of
    the first row, or the exception raised, together with the pipeline
    object as the call leaves it. *)
Context {Pipeline : Type}.
Variable predict_proba :
  Pipeline → DataFrame Enriched → outcome Q * Pipeline.

Record ReliabilityPredictor := mkReliabilityPredictor {
  pipeline : Pipeline
}.

(** [predict] returns its result (or the exception) and the engine as the
    call leaves it. *)
Definition predict (self : ReliabilityPredictor) (record : InputRecord)
  : outcome PredictionResult * ReliabilityPredictor :=
  let frame := _prepare_frame (frame_of_record record) in
  let '(answer, pipeline') := predict_proba (pipeline self) frame in
  let self' := {| pipeline := pipeline' |} in
  match answer with
  | Raise e => (Raise e, self')
  | Return proba =>
      let risk_band := _to_risk_band proba in
      match iloc0_with_risk frame proba with
      | Raise e => (Raise e, self')
      | Return row =>
          match compute_cost_of_ownership_defaults row with
          | Raise e => (Raise e, self')
          | Return cost_projection =>
              let maintenance_timeline := generate_maintenance_timeline row in
              (Return {| probability := proba;
                         risk_band := risk_band;
                         cost_projection := cost_projection;
                         maintenance_timeline := maintenance_timeline |},
               self')
          end
      end
  end.

End Engine.

End Predict.

(** ** Risk bands on binary64 numbers *)

Module Binary64.

Local Open Scope string_scope.
Local Set Warnings "-inexact-float".

(** Every finite binary64 number is a whole multiple of [2 ^ -1074]. *)
Definition scale : positive := 2 ^ 1074.

Definition SF2Q (x : spec_float) : option Q :=
  match x with
  | S754_zero _ => Some 0%Q
  | S754_finite s m e =>
      let n := (Zpos m * 2 ^ (e + 1074))%Z in
      Some ((if s then - n else n)%Z # scale)
  | _ => None
  end.

(** The exact value of a finite binary64 number. *)
Definition value (x : float) : option Q := SF2Q (Prim2SF x).

(** [_to_risk_band] on binary64 numbers, with the literals as Python reads
    them. *)
Definition _to_risk_band (probability : float) : string :=
  if (0.65 <=? probability)%float then "High"
  else if (0.4 <=? probability)%float then "Moderate"
  else "Low".

(** [threshold_ok mc ec q0]: the binary64 number [mc * 2 ^ ec] is a normal
    number with a following exponent, and the least binary64 number that
    is at least [q0]. *)
Definition threshold_ok (mc : positive) (ec : Z) (q0 : Q) : bool :=
  let S := (2 ^ (ec + 1074))%Z in
  let N := (Qnum q0 * Zpos scale)%Z in
  let D := Zpos (Qden q0) in
  ((-1074 <=? ec) && ((Zpos mc - 1) * S * D <? N) && (N <=? Zpos mc * S * D)
   && ((2 ^ 53 - 1) * S * D <? 2 * N) && (N <=? 2 ^ 53 * S * D))%Z.

End Binary64.

(** ** The callers: [compare], and the training-time frame *)

Module Callers.

Import Preprocess Predict.


(** The mapping that [compare] returns. *)
Record Comparison := mkComparison {
  car_a : PredictionResult;
  car_b : PredictionResult
}.

Section Compare.

Context {Pipeline : Type}.
Variable predict_proba :
  Pipeline → DataFrame Enriched → outcome Q * Pipeline.

(** [ReliabilityPredictor.compare]: the entries of the mapping are
    evaluated in order, so the second prediction is not attempted when the
    first raises. *)
Definition compare (self : ReliabilityPredictor (Pipeline := Pipeline))
  (record_a record_b : InputRecord)
  : outcome Comparison * ReliabilityPredictor (Pipeline := Pipeline) :=
  let '(first, self1) := predict predict_proba self record_a in
  match first with
  | Raise e => (Raise e, self1)
  | Return result_a =>
      let '(second, self2) := predict predict_proba self1 record_b in
      match second with
      | Raise e => (Raise e, self2)
      | Return result_b =>
          (Return {| car_a := result_a; car_b := result_b |}, self2)
      end
  end.

End Compare.

End Callers.

(** * The binary64 embedding

    The functions whose results are binary64 numbers, with the arithmetic of
    the source: every [+], [-], [*], [/] is the binary64 operation, every
    literal the binary64 number Python reads, every comparison the binary64
    comparison (false on NaN). *)

Module PyFloat.

Local Open Scope float_scope.
Local Set Warnings "-inexact-float".

(** [max(a, b)] and [min(a, b)]: the builtins keep the first argument
    unless the second compares strictly greater (smaller), so a NaN first
    argument is kept and a NaN second argument is dropped. *)
Definition py_max (a b : float) : float := if a <? b then b else a.
Definition py_min (a b : float) : float := if b <? a then b else a.

(** [int(x)]: truncation towards zero; Python raises on NaN and on the
    infinities. *)
Definition py_int (x : float) : outcome Z :=
  match Prim2SF x with
  | S754_zero _ => Return 0%Z
  | S754_finite s m e =>
      let a := Z.shiftl (Zpos m) e in
      Return (if s then (- a)%Z else a)
  | S754_infinity _ => Raise OverflowError
  | S754_nan => Raise (ValueError "cannot convert float NaN to integer")
  end.

(** The result of [round(x, 2)].  Python rounds the exact value of [x] to
    the nearest multiple of 0.01, ties to the even multiple, and returns
    the binary64 number nearest to that decimal: [Cents n] stands for the
    binary64 number nearest to [n / 100] (the sign of a zero result is not
    kept).  From [2 ^ 46] on, binary64 numbers are at least 1/64 apart and
    the number returned is [x] itself, as it is for NaN and the
    infinities: [Unrounded x]. *)
Inductive figure :=
| Cents (n : Z)
| Unrounded (x : float).

Definition round2 (x : float) : figure :=
  match Binary64.value x with
  | Some q =>
      if abs x <? 70368744177664
      then Cents (PyNum.round_half_even (q * 100))
      else Unrounded x
  | None => Unrounded x
  end.

(** An integer of magnitude below [2 ^ 53], as a binary64 number. *)
Definition float_of_Z (z : Z) : float :=
  match z with
  | Z0 => 0
  | Zpos p => of_uint63 (Uint63.of_Z (Zpos p))
  | Zneg p => - of_uint63 (Uint63.of_Z (Zpos p))
  end.

(** The binary64 number that a figure stands for. *)
Definition figure_float (f : figure) : float :=
  match f with
  | Cents n => float_of_Z n / 100
  | Unrounded x => x
  end.

(** A figure of at least 500. *)
Definition at_least_500 (f : figure) : bool :=
  match f with
  | Cents n => (50000 <=? n)%Z
  | Unrounded x => 500 <=? x
  end.

End PyFloat.

(** ** src/features/preprocess.py over binary64 numbers *)

Module Preprocess64.

Import PyFloat.
Local Open Scope string_scope.
Local Open Scope float_scope.
Local Set Warnings "-inexact-float".

Definition CURRENT_YEAR : Z := 2024.

(** The table's integers, as the binary64 numbers they become in the sum
    with a cost. *)
Definition COST_FACTORS : gmap string float :=
  list_to_map
    [ ("oil change", 120);
      ("brake pad replacement", 380);
      ("software update", 160);
      ("battery inspection", 90);
      ("tire rotation", 75) ].

Definition cost_table (action : string) : float :=
  if String.eqb action "oil change" then 120
  else if String.eqb action "brake pad replacement" then 380
  else if String.eqb action "software update" then 160
  else if String.eqb action "battery inspection" then 90
  else if String.eqb action "tire rotation" then 75
  else 150.

(** One row of the data file: integer columns are int64 values, the other
    numeric columns binary64 numbers. *)
Record VehicleRecord := mkVehicleRecord {
  make : string;
  model : string;
  year : Z;
  mileage : Z;
  avg_trip_length_miles : float;
  maintenance_events : Z;
  past_failures : Z;
  severity_score : float;
  maintenance_cost_last_year : float;
  fuel_cost_last_year : float;
  complaint_text : string;
  maintenance_action : string
}.

(** The columns of the data file, with the column [has_mechanical_issue]
    absent or holding one number per row. *)
Inductive Table :=
| Unlabelled (rows : list VehicleRecord)
| Labelled (rows : list (VehicleRecord * float)).

Definition table_rows (t : Table) : list VehicleRecord :=
  match t with
  | Unlabelled rows => rows
  | Labelled rows => map fst rows
  end.

(** The columns that [engineer_domain_features] adds, one row. *)
Record Features := mkFeatures {
  car_age : Z;
  total_cost_last_year : float;
  estimated_next_year_cost : float;
  ownership_cost_score : float
}.

(** A [pd.DataFrame]: the columns of the data file, and the columns added
    later, each group present or not. *)
Record DataFrame := mkDataFrame {
  table : Table;
  features : option (list Features);
  sentiment : option (list Sentiment.SentimentScores);
  risk_score : option (list float)
}.

(** Arithmetic on an int64 column wraps around. *)
Definition wrap_int64 (z : Z) : Z :=
  ((z + 2 ^ 63) mod 2 ^ 64 - 2 ^ 63)%Z.

(** [series.clip(lower=lo)], one element: NaN stays NaN. *)
Definition clip_lower (lo x : float) : float := if x <? lo then lo else x.

(** One row of [engineer_domain_features]; [issue] is the row's element of
    [df.get("has_mechanical_issue", 0)]. *)
Definition engineer_row (r : VehicleRecord) (issue : float) : Features :=
  let total := maintenance_cost_last_year r + fuel_cost_last_year r in
  {| car_age := wrap_int64 (CURRENT_YEAR - year r);
     total_cost_last_year := total;
     estimated_next_year_cost := total * (1.05 + 0.02 * issue);
     ownership_cost_score := total / clip_lower 1 (avg_trip_length_miles r) |}.

(** The four columns: with the label column absent [issue_series] is the
    scalar [0]. *)
Definition engineered_columns (t : Table) : list Features :=
  match t with
  | Unlabelled rows => map (λ r, engineer_row r 0) rows
  | Labelled rows => map (λ rl, engineer_row (fst rl) (snd rl)) rows
  end.

Definition engineer_domain_features (df : DataFrame) : DataFrame :=
  {| table := table df;
     features := Some (engineered_columns (table df));
     sentiment := sentiment df;
     risk_score := risk_score df |}.

(** [append_sentiment_scores]: on a frame without rows [Series.apply]
    returns an empty series and the assignment of the three columns
    raises. *)
Definition append_sentiment_scores (df : DataFrame) : outcome DataFrame :=
  match table_rows (table df) with
  | [] => Raise (ValueError "Columns must be same length as key")
  | rows =>
      Return
        {| table := table df;
           features := features df;
           sentiment :=
             Some (map (λ r, Sentiment.score_text (complaint_text r)) rows);
           risk_score := risk_score df |}
  end.

(** The row ([pd.Series]) read with [row.get(key, default)]. *)
Record Row := mkRow {
  row_maintenance_action : option string;
  row_risk_score : option float;
  row_maintenance_cost_last_year : option float;
  row_total_cost_last_year : option float
}.

Record CostProjection := mkCostProjection {
  maintenance_projection : figure;
  fuel_cost_projection : figure;
  depreciation_estimate : figure;
  total_projection : figure
}.

(** The locals of [compute_cost_of_ownership]. *)
Definition base_maintenance (row : Row) : float :=
  default 150 (COST_FACTORS !! default "" (row_maintenance_action row)).

Definition risk_multiplier (row : Row) : float :=
  1 + 0.35 * default 0.2 (row_risk_score row).

Definition maintenance_projection_of (row : Row) : float :=
  (default 600 (row_maintenance_cost_last_year row) + base_maintenance row)
  * risk_multiplier row.

Definition fuel_cost_projection_of
  (annual_mileage fuel_price_per_gallon efficiency_mpg : float) : float :=
  (annual_mileage / efficiency_mpg) * fuel_price_per_gallon.

Definition depreciation_of (row : Row) : float :=
  py_max 500 (0.12 * default 1500 (row_total_cost_last_year row)).

(** The three keyword arguments are given as binary64 numbers (the integer
    defaults 12000 and 26 are such numbers); a zero [efficiency_mpg] makes
    the division raise. *)
Definition compute_cost_of_ownership (row : Row)
  (annual_mileage fuel_price_per_gallon efficiency_mpg : float)
  : outcome CostProjection :=
  if efficiency_mpg =? 0 then Raise ZeroDivisionError
  else
    let maintenance_projection := maintenance_projection_of row in
    let fuel_cost_projection :=
      fuel_cost_projection_of annual_mileage fuel_price_per_gallon
        efficiency_mpg in
    let depreciation := depreciation_of row in
    Return
      {| maintenance_projection := round2 maintenance_projection;
         fuel_cost_projection := round2 fuel_cost_projection;
         depreciation_estimate := round2 depreciation;
         total_projection :=
           round2 (maintenance_projection + fuel_cost_projection
                   + depreciation) |}.

Definition compute_cost_of_ownership_defaults (row : Row)
  : outcome CostProjection :=
  compute_cost_of_ownership row 12000 3.5 26.

(** The locals of [generate_maintenance_timeline]. *)
Definition compression_of (risk_score : float) : float :=
  1 - py_min (py_max risk_score 0) 0.95 * 0.4.

Definition interval_months_of (risk_score : float) : outcome Z :=
  let base_interval := 6 in
  match py_int (base_interval * compression_of risk_score) with
  | Return months => Return (PyNum.py_maxZ 3 months)
  | Raise e => Raise e
  end.

Definition milestones_at (interval_months : Z) : list Preprocess.Milestone :=
  [ {| Preprocess.timeframe := pretty interval_months ++ " months";
       Preprocess.action := "Comprehensive inspection & fluid checks" |};
    {| Preprocess.timeframe := pretty (interval_months * 2)%Z ++ " months";
       Preprocess.action := "Predictive component diagnostics" |};
    {| Preprocess.timeframe := pretty (interval_months * 3)%Z ++ " months";
       Preprocess.action := "System software updates & alignment" |} ].

Definition specialist_assessment : Preprocess.Milestone :=
  {| Preprocess.timeframe := "Next 30 days";
     Preprocess.action := "Schedule reliability assessment with specialist" |}.

Definition generate_maintenance_timeline (row : Row)
  : outcome (list Preprocess.Milestone) :=
  let risk_score := default 0.25 (row_risk_score row) in
  match interval_months_of risk_score with
  | Raise e => Raise e
  | Return interval_months =>
      let milestones := milestones_at interval_months in
      Return
        (if 0.6 <? risk_score
         then (milestones ++ [specialist_assessment])%list
         else milestones)
  end.

End Preprocess64.

(** ** src/models/predict.py over binary64 numbers, with the objects that
    [predict] shares with its caller *)

Module Predict64.

Import PyFloat Preprocess64.
Local Open Scope string_scope.

Record PredictionResult := mkPredictionResult {
  probability : float;
  risk_band : string;
  cost_projection : CostProjection;
  maintenance_timeline : list Preprocess.Milestone
}.

(** A record mapping handed to [predict]: the fields of the data file, and
    the label when the mapping carries it. *)
Definition InputRecord : Type := VehicleRecord * option float.

(** [pd.DataFrame(list(records))]: the label column exists when a record
    carries it, with NaN where a record does not; without records the
    frame has no column at all ([None]). *)
Definition frame_of_records (records : list InputRecord) : option DataFrame :=
  match records with
  | [] => None
  | _ =>
      let t :=
        if existsb (λ r, bool_decide (is_Some (snd r))) records
        then Labelled (map (λ r, (fst r, default nan (snd r))) records)
        else Unlabelled (map fst records) in
      Some {| table := t; features := None; sentiment := None;
              risk_score := None |}
  end.

(** [frame["risk_score"] = proba]: the scalar is broadcast. *)
Definition set_risk_score (frame : DataFrame) (proba : float) : DataFrame :=
  {| table := table frame;
     features := features frame;
     sentiment := sentiment frame;
     risk_score := Some (map (λ _, proba) (table_rows (table frame))) |}.

(** [frame.iloc[0]], with the keys that the cost projector and the timeline
    synthesizer read. *)
Definition iloc0 (frame : DataFrame) : outcome Row :=
  match table_rows (table frame) with
  | [] => Raise IndexError
  | r :: _ =>
      Return
        {| row_maintenance_action := Some (maintenance_action r);
           row_risk_score := risk_score frame ≫= head;
           row_maintenance_cost_last_year :=
             Some (maintenance_cost_last_year r);
           row_total_cost_last_year :=
             total_cost_last_year <$> (features frame ≫= head) |}
  end.

(** Objects live in a store, at locations: the record mappings of the
    caller, the frames, and the engines. *)
Definition loc : Type := positive.

Section Engine.

(** [Pipeline]: the state of the persisted scikit-learn pipeline. *)
Context {Pipeline : Type}.

Record ReliabilityPredictor := mkReliabilityPredictor {
  pipeline : Pipeline
}.

Record store := mkStore {
  mappings : gmap loc InputRecord;
  frames : gmap loc DataFrame;
  predictors : gmap loc ReliabilityPredictor
}.

(** A computation: from a store to a result, or an exception, and the
    store as it is left. *)
Definition M (A : Type) : Type := store → outcome A * store.

Definition ret {A} (a : A) : M A := λ h, (Return a, h).

Definition bind {A B} (m : M A) (k : A → M B) : M B :=
  λ h,
    match m h with
    | (Return a, h') => k a h'
    | (Raise e, h') => (Raise e, h')
    end.

Definition lift {A} (o : outcome A) : M A := λ h, (o, h).

(** Reading an object; a location that holds none cannot come from a
    reference that the caller holds. *)
Definition read_mapping (l : loc) : M InputRecord :=
  λ h,
    match mappings h !! l with
    | Some r => (Return r, h)
    | None => (Raise ReferenceError, h)
    end.

Definition read_frame (l : loc) : M DataFrame :=
  λ h,
    match frames h !! l with
    | Some df => (Return df, h)
    | None => (Raise ReferenceError, h)
    end.

Definition read_predictor (l : loc) : M ReliabilityPredictor :=
  λ h,
    match predictors h !! l with
    | Some p => (Return p, h)
    | None => (Raise ReferenceError, h)
    end.

(** A new frame object, at a location not in use. *)
Definition new_frame (df : DataFrame) : M loc :=
  λ h,
    let l := fresh (dom (frames h)) in
    (Return l,
     {| mappings := mappings h;
        frames := <[l := df]> (frames h);
        predictors := predictors h |}).

Definition write_frame (l : loc) (df : DataFrame) : M unit :=
  λ h,
    (Return tt,
     {| mappings := mappings h;
        frames := <[l := df]> (frames h);
        predictors := predictors h |}).

Fixpoint read_mappings (records : list loc) : M (list InputRecord) :=
  match records with
  | [] => ret []
  | l :: rest =>
      bind (read_mapping l) (λ r,
      bind (read_mappings rest) (λ rs, ret (r :: rs)))
  end.

(** [engineer_domain_features(df)]: [df.copy()] is a new frame, which
    receives the four columns. *)
Definition engineer_domain_features_of (df : loc) : M loc :=
  bind (read_frame df) (λ content,
  bind (new_frame content) (λ engineered,
  bind (write_frame engineered (engineer_domain_features content)) (λ _,
  ret engineered))).

(** [append_sentiment_scores(df)]: [df.copy()] is a new frame, which
    receives the three columns unless the assignment raises. *)
Definition append_sentiment_scores_of (df : loc) : M loc :=
  bind (read_frame df) (λ content,
  bind (new_frame content) (λ enriched,
  bind (lift (append_sentiment_scores content)) (λ scored,
  bind (write_frame enriched scored) (λ _,
  ret enriched)))).

(** [ReliabilityPredictor._prepare_frame(records)]: without records the
    frame has no column and the first column access raises. *)
Definition _prepare_frame (records : list loc) : M loc :=
  bind (read_mappings records) (λ rs,
  match frame_of_records rs with
  | None => lift (Raise (KeyError "year"))
  | Some content =>
      bind (new_frame content) (λ df,
      bind (engineer_domain_features_of df) (λ df,
      append_sentiment_scores_of df))
  end).

(** [float(self.pipeline.predict_proba(frame)[0, 1])]: the classifier is
    library code.  It is handed the engine that owns the pipeline and the
    frame, and is a computation on the store like any other: nothing about
    what it reads, changes or answers is fixed here. *)
Variable predict_proba : loc → loc → M float.

Definition predict (self record : loc) : M PredictionResult :=
  bind (_prepare_frame [record]) (λ frame,
  bind (read_predictor self) (λ _,
  bind (predict_proba self frame) (λ proba,
  let risk_band := Binary64._to_risk_band proba in
  bind (read_frame frame) (λ content,
  bind (write_frame frame (set_risk_score content proba)) (λ _,
  bind (read_frame frame) (λ content,
  bind (lift (iloc0 content)) (λ row,
  bind (lift (compute_cost_of_ownership_defaults row)) (λ cost_projection,
  bind (read_frame frame) (λ content,
  bind (lift (iloc0 content)) (λ row,
  bind (lift (generate_maintenance_timeline row)) (λ maintenance_timeline,
  ret {| probability := proba;
         risk_band := risk_band;
         cost_projection := cost_projection;
         maintenance_timeline := maintenance_timeline |}))))))))))).

End Engine.

(** The frame that [_prepare_frame] builds from one record mapping. *)
Definition prepared (record : InputRecord) : outcome DataFrame :=
  match frame_of_records [record] with
  | None => Raise (KeyError "year")
  | Some content => append_sentiment_scores (engineer_domain_features content)
  end.

(** What [predict] builds from the prepared frame and the classifier's
    answer. *)
Definition result_of (content : DataFrame) (proba : float)
  : outcome PredictionResult :=
  match iloc0 (set_risk_score content proba) with
  | Raise e => Raise e
  | Return row =>
      match compute_cost_of_ownership_defaults row with
      | Raise e => Raise e
      | Return cost_projection =>
          match generate_maintenance_timeline row with
          | Raise e => Raise e
          | Return maintenance_timeline =>
              Return
                {| probability := proba;
                   risk_band := Binary64._to_risk_band proba;
                   cost_projection := cost_projection;
                   maintenance_timeline := maintenance_timeline |}
          end
      end
  end.

End Predict64.


(** ** Sample inputs *)

Module Samples.

Import Preprocess.
Local Open Scope string_scope.
Local Open Scope Q_scope.

(** A record on the prediction path: oil change, 602 spent on maintenance
    last year, risk score 0.42. *)
Definition row_602 : Row :=
  {| row_maintenance_action := Some "oil change";
     row_risk_score := Some 0.42;
     row_maintenance_cost_last_year := Some 602;
     row_total_cost_last_year := Some 2002 |}.

(** A record on the prediction path: oil change, 600 spent on maintenance
    last year, risk score 0.2. *)
Definition row_600 : Row :=
  {| row_maintenance_action := Some "oil change";
     row_risk_score := Some 0.2;
     row_maintenance_cost_last_year := Some 600;
     row_total_cost_last_year := Some 2000 |}.

(** A row whose risk score is 0.7. *)
Definition row_risk_07 : Row :=
  {| row_maintenance_action := Some "oil change";
     row_risk_score := Some 0.7;
     row_maintenance_cost_last_year := Some 600;
     row_total_cost_last_year := Some 2000 |}.

(** A classifier that answers with the probability it stores and leaves
    itself unchanged. *)
Definition constant_classifier (p : Q)
  (frame : DataFrame Predict.Enriched) : outcome Q * Q :=
  (Return p, p).

Definition sample_record : Predict.InputRecord :=
  (mkVehicleRecord "Toyota" "Camry" 2018 60000 12.5 2 1 3.5
     602 1400 "Smooth ride but the brakes are noisy" "oil change",
   None).

(** Complaints of lower-case words without stop words, for which
    scikit-learn's analysis is the split on whitespace, and a frame whose
    severity scores are all equal (standard deviation 0). *)
Definition complaint (text : string) (severity : Q) : VehicleRecord :=
  mkVehicleRecord "Toyota" "Camry" 2018 60000 12.5 2 1 severity
    602 1400 text "oil change".

Definition plain_words (doc : string) : list string := Sentiment.split doc.

Definition std_of_constant (severity : list Q) : Q := 0.

End Samples.

Module Samples64.

Import Preprocess64.
Local Open Scope string_scope.
Local Open Scope float_scope.
Local Set Warnings "-inexact-float".

(** The rows of [Samples], with binary64 fields. *)
Definition row_602 : Row :=
  {| row_maintenance_action := Some "oil change";
     row_risk_score := Some 0.42;
     row_maintenance_cost_last_year := Some 602;
     row_total_cost_last_year := Some 2002 |}.

Definition row_600 : Row :=
  {| row_maintenance_action := Some "oil change";
     row_risk_score := Some 0.2;
     row_maintenance_cost_last_year := Some 600;
     row_total_cost_last_year := Some 2000 |}.

Definition row_risk_07 : Row :=
  {| row_maintenance_action := Some "oil change";
     row_risk_score := Some 0.7;
     row_maintenance_cost_last_year := Some 600;
     row_total_cost_last_year := Some 2000 |}.

Definition camry : VehicleRecord :=
  mkVehicleRecord "Toyota" "Camry" 2018 60000 12.5 2 1 3.5
    602 1400 "Smooth ride but the brakes are noisy" "oil change".

(** The same car, driven on trips of half a mile. *)
Definition camry_short_trips : VehicleRecord :=
  mkVehicleRecord "Toyota" "Camry" 2018 60000 0.5 2 1 3.5
    602 1400 "Smooth ride but the brakes are noisy" "oil change".

(** A classifier that answers with the number its pipeline stores, and
    changes nothing. *)
Definition stored_probability (self frame : Predict64.loc)
  : Predict64.M (Pipeline := float) float :=
  Predict64.bind (Predict64.read_predictor self) (λ engine,
  Predict64.bind (Predict64.read_frame frame) (λ _,
  Predict64.ret (Predict64.pipeline engine))).

(** A store with one record mapping and one engine. *)
Definition sample_store : Predict64.store (Pipeline := float) :=
  {| Predict64.mappings := {[ 1%positive := (camry, None) ]};
     Predict64.frames := ∅;
     Predict64.predictors :=
       {[ 2%positive := {| Predict64.pipeline := 0.7 |} ]} |}.

End Samples64.

(** * Properties *)

Import Samples.

(** ** Rounding *)

Section Rounding.

Import PyNum.
Local Open Scope Q_scope.

Lemma round_half_even_cases (x : Q) :
  let n := Qnum x in
  let d := Zpos (Qden x) in
  (round_half_even x = (n / d)%Z ∧ (2 * (n mod d) <= d)%Z)
  ∨ (round_half_even x = (n / d + 1)%Z ∧ (d <= 2 * (n mod d))%Z).
Proof.
  intros n d. unfold round_half_even. fold n d.
  destruct (Z.compare_spec (2 * (n mod d)) d) as [E | L | G].
  - destruct (Z.even (n / d)); [left | right]; split; lia.
  - left; split; lia.
  - right; split; lia.
Qed.


Lemma round_half_even_lower (k : Z) (x : Q) :
  inject_Z k <= x → (k <= round_half_even x)%Z.
Proof.
  destruct x as [n d]. unfold Qle, inject_Z. cbn [Qnum Qden]. intros H.
  assert (k <= n / Zpos d)%Z as Hk by (apply Z.div_le_lower_bound; lia).
  destruct (round_half_even_cases (n # d)) as [[-> _] | [-> _]];
    cbn [Qnum Qden]; lia.
Qed.


End Rounding.

(** ** Risk bands *)

Section RiskBand.

Import Predict.
Local Open Scope string_scope.
Local Open Scope Q_scope.

(** C1. For every probability [p] the band is High iff [p >= 0.65],
    Moderate iff [0.40 <= p < 0.65], and Low iff [p < 0.40]. *)
Theorem to_risk_band_thresholds (p : Q) :
  (_to_risk_band p = "High" ↔ 0.65 <= p)
  ∧ (_to_risk_band p = "Moderate" ↔ 0.4 <= p ∧ p < 0.65)
  ∧ (_to_risk_band p = "Low" ↔ p < 0.4).
Proof.
  unfold _to_risk_band.
  destruct (Qle_bool 0.65 p) eqn:Hhi; [| destruct (Qle_bool 0.4 p) eqn:Hmid].
  - apply Qle_bool_iff in Hhi.
    repeat split; try discriminate; try done; intros; exfalso; lra.
  - apply Qle_bool_iff in Hmid.
    assert (¬ 0.65 <= p) as Hn by (rewrite <- Qle_bool_iff; congruence).
    repeat split; try discriminate; try done; try lra; intros; exfalso; lra.
  - assert (¬ 0.65 <= p) as Hn by (rewrite <- Qle_bool_iff; congruence).
    assert (¬ 0.4 <= p) as Hm by (rewrite <- Qle_bool_iff; congruence).
    repeat split; try discriminate; try done; try lra; intros; exfalso; lra.
Qed.

Example to_risk_band_samples :
  map _to_risk_band [0.3; 0.4; 0.65; 0.9] = ["Low"; "Moderate"; "High"; "High"].
Proof. reflexivity. Qed.

End RiskBand.

(** ** Risk bands on binary64 numbers *)

Section Binary64Facts.

Import Binary64.
Local Open Scope Z_scope.
Local Set Warnings "-inexact-float".

Lemma digits2_pos_bounds (m : positive) :
  2 ^ (Zpos (digits2_pos m) - 1) <= Zpos m < 2 ^ Zpos (digits2_pos m).
Proof.
  induction m as [m IH | m IH |]; cbn [digits2_pos].
  - rewrite Pos2Z.inj_succ, Z.pow_succ_r by lia.
    replace (Z.succ (Zpos (digits2_pos m)) - 1) with
      (Z.succ (Zpos (digits2_pos m) - 1)) by lia.
    rewrite Z.pow_succ_r by lia. lia.
  - rewrite Pos2Z.inj_succ, Z.pow_succ_r by lia.
    replace (Z.succ (Zpos (digits2_pos m)) - 1) with
      (Z.succ (Zpos (digits2_pos m) - 1)) by lia.
    rewrite Z.pow_succ_r by lia. lia.
  - cbn. lia.
Qed.

(** The mantissa of a valid binary64 number has at most 53 bits, and
    exactly 53 above the smallest exponent. *)
Lemma bounded_mantissa (m : positive) (e : Z) :
  bounded prec emax m e = true →
  -1074 <= e ∧ Zpos m < 2 ^ 53 ∧ (-1074 < e → 2 ^ 52 <= Zpos m).
Proof.
  unfold bounded, canonical_mantissa, fexp, SpecFloat.emin, prec, emax.
  intros H. apply andb_true_iff in H as [H _]. apply Z.eqb_eq in H.
  pose proof (digits2_pos_bounds m) as [Hlo Hhi].
  set (d := Zpos (digits2_pos m)) in *.
  assert (d <= 53) as Hd by lia.
  split; [lia |]. split.
  - apply Z.lt_le_trans with (2 ^ d); [lia |].
    apply Z.pow_le_mono_r; lia.
  - intros He. assert (d = 53) as -> by lia. exact Hlo.
Qed.

Lemma threshold_ok_spec mc ec q0 :
  threshold_ok mc ec q0 = true →
  let S := 2 ^ (ec + 1074) in
  let N := Qnum q0 * Zpos scale in
  let D := Zpos (Qden q0) in
  -1074 <= ec ∧ (Zpos mc - 1) * S * D < N ∧ N <= Zpos mc * S * D
  ∧ (2 ^ 53 - 1) * S * D < 2 * N ∧ N <= 2 ^ 53 * S * D.
Proof.
  unfold threshold_ok. intros H.
  repeat (apply andb_true_iff in H as [H ?]).
  repeat split; try apply Z.leb_le; try apply Z.ltb_lt; assumption.
Qed.

Lemma SFleb_threshold (mc : positive) (ec : Z) (q0 q : Q) (x : spec_float) :
  threshold_ok mc ec q0 = true →
  valid_binary x = true →
  SF2Q x = Some q →
  SFleb (S754_finite false mc ec) x = Qle_bool q0 q.
Proof.
  intros Hok Hvalid Hq. apply threshold_ok_spec in Hok.
  cbv zeta in Hok. destruct Hok as (Hec & Hb1 & Hb2 & Hc & Hd).
  set (S := 2 ^ (ec + 1074)) in *. set (N := Qnum q0 * Zpos scale) in *.
  set (D := Zpos (Qden q0)) in *.
  assert (Hden : ∀ n : Z, Qle_bool q0 (n # scale) = (N <=? n * D))
    by reflexivity.
  assert (0 < S) as HS by (apply Z.pow_pos_nonneg; lia).
  assert (0 < D) as HD by (unfold D; lia).
  assert (0 < S * D) as HT by (apply Z.mul_pos_pos; assumption).
  assert (0 <= (Zpos mc - 1) * (S * D)) as Hpos
    by (apply Z.mul_nonneg_nonneg; lia).
  assert (0 < N) as HN by lia.
  assert (0 < Qnum q0) as Hq0
    by (apply (Z.mul_pos_cancel_r _ (Zpos scale)); [lia | exact HN]).
  clearbody N D.
  destruct x as [s | s | | s m e]; try discriminate.
  - (* zero *)
    cbn [SF2Q] in Hq. injection Hq as <-. cbn [SFleb SFcompare].
    unfold Qle_bool. cbn [Qnum Qden]. symmetry. apply Z.leb_gt. lia.
  - cbn [valid_binary] in Hvalid. apply bounded_mantissa in Hvalid.
    destruct Hvalid as (He & Hm53 & Hm52).
    cbn [SF2Q] in Hq. injection Hq as <-. rewrite Hden.
    assert (0 < 2 ^ (e + 1074)) as HE by (apply Z.pow_pos_nonneg; lia).
    destruct s.
    + (* negative *)
      cbn [SFleb SFcompare]. symmetry. apply Z.leb_gt.
      assert (0 <= Zpos m * 2 ^ (e + 1074) * D)
        by (repeat apply Z.mul_nonneg_nonneg; lia).
      lia.
    + unfold SFleb, SFcompare.
      destruct (Z.compare_spec ec e) as [<- | Hlt | Hgt].
      * fold S. change (Pos.compare_cont Eq mc m) with (Pos.compare mc m).
        rewrite Pos2Z.inj_compare.
        destruct (Z.compare_spec (Zpos mc) (Zpos m)) as [E | L | G];
          symmetry; [apply Z.leb_le | apply Z.leb_le | apply Z.leb_gt].
        -- rewrite <- E. exact Hb2.
        -- assert (Zpos mc * (S * D) <= Zpos m * (S * D))
             by (apply Z.mul_le_mono_nonneg_r; lia).
           lia.
        -- assert (Zpos m * (S * D) <= (Zpos mc - 1) * (S * D))
             by (apply Z.mul_le_mono_nonneg_r; lia).
           lia.
      * symmetry. apply Z.leb_le.
        replace (e + 1074) with ((ec + 1074) + (e - ec)) by lia.
        rewrite Z.pow_add_r by lia. fold S.
        assert (2 <= 2 ^ (e - ec)) as HK by
          (change 2 with (2 ^ 1) at 1; apply Z.pow_le_mono_r; lia).
        specialize (Hm52 ltac:(lia)).
        set (K := 2 ^ (e - ec)) in *. clearbody K S.
        assert (2 ^ 52 * 2 <= Zpos m * K)
          by (apply Z.mul_le_mono_nonneg; lia).
        assert (2 ^ 52 * 2 * (S * D) <= Zpos m * K * (S * D))
          by (apply Z.mul_le_mono_nonneg_r; lia).
        lia.
      * symmetry. apply Z.leb_gt.
        assert (S = 2 ^ (e + 1074) * 2 ^ (ec - e)) as HS'
          by (unfold S; rewrite <- Z.pow_add_r by lia; f_equal; lia).
        assert (2 <= 2 ^ (ec - e)) as HK by
          (change 2 with (2 ^ 1) at 1; apply Z.pow_le_mono_r; lia).
        set (K := 2 ^ (ec - e)) in *. set (E := 2 ^ (e + 1074)) in *.
        clearbody K E S. subst S.
        assert (0 <= Zpos m * (E * D))
          by (repeat apply Z.mul_nonneg_nonneg; lia).
        assert (Zpos m * (E * D) * 2 <= Zpos m * (E * D) * K)
          by (apply Z.mul_le_mono_nonneg_l; lia).
        assert (Zpos m * (E * K * D) <= (2 ^ 53 - 1) * (E * K * D))
          by (apply Z.mul_le_mono_nonneg_r; lia).
        lia.
Qed.


(** The three bands over the rationals, as exclusive cases. *)
Lemma to_risk_band_cases (p : Q) :
  ((0.65 <= p)%Q ∧ Predict._to_risk_band p = "High"%string)
  ∨ ((0.4 <= p)%Q ∧ (p < 0.65)%Q ∧ Predict._to_risk_band p = "Moderate"%string)
  ∨ ((p < 0.4)%Q ∧ Predict._to_risk_band p = "Low"%string).
Proof.
  unfold Predict._to_risk_band.
  destruct (Qle_bool 0.65 p) eqn:Hhi; [| destruct (Qle_bool 0.4 p) eqn:Hmid].
  - left. by apply Qle_bool_iff in Hhi.
  - right; left. apply Qle_bool_iff in Hmid.
    assert (¬ 0.65 <= p)%Q by (rewrite <- Qle_bool_iff; congruence).
    split; [lra | split; [lra | done]].
  - right; right.
    assert (¬ 0.4 <= p)%Q by (rewrite <- Qle_bool_iff; congruence).
    split; [lra | done].
Qed.

(** On a finite binary64 probability the comparisons against the literals
    [0.65] and [0.4] give the band of its exact value. *)
Lemma to_risk_band_refines (p : float) (q : Q) :
  value p = Some q → _to_risk_band p = Predict._to_risk_band q.
Proof.
  unfold value, _to_risk_band, Predict._to_risk_band. intros Hq.
  rewrite !leb_spec.
  change (Prim2SF 0.65) with (S754_finite false 5854679515581645 (-53)).
  change (Prim2SF 0.4) with (S754_finite false 7205759403792794 (-54)).
  rewrite (SFleb_threshold _ _ 0.65%Q q), (SFleb_threshold _ _ 0.4%Q q);
    auto using Prim2SF_valid; by vm_compute.
Qed.

(** The thresholds on binary64 numbers: for a finite probability [p] with
    exact value [q], the band computed with the literals is High iff
    [q >= 0.65], Moderate iff [0.40 <= q < 0.65], and Low iff [q < 0.40]. *)
Theorem to_risk_band_binary64 (p : float) (q : Q) :
  value p = Some q →
  (_to_risk_band p = "High"%string ↔ (0.65 <= q)%Q)
  ∧ (_to_risk_band p = "Moderate"%string ↔ (0.4 <= q)%Q ∧ (q < 0.65)%Q)
  ∧ (_to_risk_band p = "Low"%string ↔ (q < 0.4)%Q).
Proof.
  intros Hq. rewrite (to_risk_band_refines p q Hq).
  destruct (to_risk_band_cases q) as [[H ->] | [(H1 & H2 & ->) | [H ->]]].
  - split; [| split]; split; try discriminate; try done; intros; exfalso; lra.
  - split; [| split]; split; try discriminate; try done; intros; exfalso; lra.
  - split; [| split]; split; try discriminate; try done; intros; exfalso; lra.
Qed.

Lemma to_risk_band_binary64_witness :
  let q := (4503599627370496 * 2 ^ 1021 # scale)%Q in
  (_to_risk_band 0.5 = "High"%string ↔ (0.65 <= q)%Q)
  ∧ (_to_risk_band 0.5 = "Moderate"%string ↔ (0.4 <= q)%Q ∧ (q < 0.65)%Q)
  ∧ (_to_risk_band 0.5 = "Low"%string ↔ (q < 0.4)%Q).
Proof. apply (to_risk_band_binary64 0.5). reflexivity. Defined.

(** Outside the finite numbers: NaN compares false with both literals. *)
Example to_risk_band_not_finite :
  _to_risk_band nan = "Low"%string ∧ _to_risk_band infinity = "High"%string
  ∧ _to_risk_band neg_infinity = "Low"%string
  ∧ value nan = None ∧ value infinity = None.
Proof. repeat split. Qed.

End Binary64Facts.

(** ** Cost projection *)

Section CostProjection.

Import PyNum Preprocess.
Local Open Scope string_scope.
Local Open Scope Q_scope.

Lemma COST_FACTORS_get (action : string) :
  default 150 (COST_FACTORS !! action) = cost_table action.
Proof.
  unfold cost_table, COST_FACTORS. cbn [list_to_map foldr uncurry fst snd].
  repeat
    match goal with
    | |- context [String.eqb action ?k] =>
        destruct (String.eqb_spec action k) as [-> | ?];
        [ vm_compute; reflexivity | rewrite lookup_insert_ne by congruence ]
    end.
  reflexivity.
Qed.

Lemma py_max_lower (a b : Q) : a <= py_max a b.
Proof.
  unfold py_max. destruct (Qle_bool b a) eqn:E; [lra |].
  assert (¬ b <= a) by (rewrite <- Qle_bool_iff; congruence). lra.
Qed.

Lemma round2_lower (k : Z) (x : Q) : inject_Z k <= x → inject_Z k <= round2 x.
Proof.
  intros H. unfold round2.
  assert (inject_Z (k * 100) <= x * 100) as H'
    by (rewrite inject_Z_mult; change (inject_Z 100) with 100; lra).
  apply round_half_even_lower in H'.
  unfold Qle, inject_Z. cbn [Qnum Qden]. lia.
Qed.

Lemma compute_cost_of_ownership_returns row am fp eff :
  ¬ eff == 0 →
  compute_cost_of_ownership row am fp eff =
  Return
    {| maintenance_projection := round2 (maintenance_projection_raw row);
       fuel_cost_projection := round2 (fuel_cost_projection_raw am fp eff);
       depreciation_estimate := round2 (depreciation_raw row);
       total_projection :=
         round2 (maintenance_projection_raw row
                 + fuel_cost_projection_raw am fp eff
                 + depreciation_raw row) |}.
Proof.
  intros H. unfold compute_cost_of_ownership.
  destruct (Qeq_bool eff 0) eqn:E; [| reflexivity].
  apply Qeq_bool_iff in E. contradiction.
Qed.







End CostProjection.

(** ** Domain features *)

Section DomainFeatures.

Import PyNum Preprocess.
Local Open Scope Q_scope.






End DomainFeatures.

(** ** Maintenance timeline *)

Section Timeline.

Import PyNum Preprocess.
Local Open Scope string_scope.
Local Open Scope Q_scope.







End Timeline.

(** ** Sentiment scoring *)

Section SentimentFacts.

Import Sentiment.
Local Open Scope string_scope.

Lemma size_inter_list_to_set (l : list string) (lexicon : gset string) :
  size (list_to_set (C := gset string) l ∩ lexicon)
  = length (remove_dups (filter (λ w, w ∈ lexicon) l)).
Proof.
  rewrite <- (size_list_to_set (C := gset string)
                (remove_dups (filter (λ w, w ∈ lexicon) l)))
    by apply NoDup_remove_dups.
  f_equal. apply set_eq. intros x.
  rewrite elem_of_intersection, !elem_of_list_to_set, elem_of_remove_dups,
    list_elem_of_filter.
  tauto.
Qed.

Lemma split_nonempty (s : string) : starts_word s = true → split s ≠ [].
Proof.
  destruct s as [| c s]; [discriminate |]. cbn. intros H.
  apply negb_true_iff in H. rewrite H.
  destruct (starts_word s); [destruct (split s) |]; discriminate.
Qed.

Lemma starts_word_app (s u : string) :
  starts_word (s ++ String " " u) = starts_word s.
Proof. destruct s; reflexivity. Qed.

(** Splitting distributes over a separating space. *)
Lemma split_app_space (s u : string) :
  split (s ++ String " " u) = (split s ++ split u)%list.
Proof.
  induction s as [| c s IH]; [reflexivity |].
  change (String c s ++ String " " u) with (String c (s ++ String " " u)).
  cbn [split]. rewrite starts_word_app, IH.
  destruct (is_space c); [reflexivity |].
  destruct (starts_word s) eqn:Hs; [| reflexivity].
  pose proof (split_nonempty s Hs).
  destruct (split s); [congruence | reflexivity].
Qed.

Lemma split_chars (P : ascii → bool) (s : string) :
  string_forall (λ c, is_space c || P c) s = true →
  Forall (λ w, string_forall P w = true) (split s).
Proof.
  induction s as [| c s IH]; [constructor |].
  cbn [string_forall split]. intros H. apply andb_true_iff in H as [Hc Hs].
  specialize (IH Hs).
  destruct (is_space c) eqn:Ec; [exact IH |]. cbn in Hc.
  destruct (starts_word s).
  - destruct (split s) as [| w ws]; [repeat constructor; cbn; by rewrite Hc |].
    inversion IH; subst. constructor; [cbn; by rewrite Hc | assumption].
  - constructor; [cbn; by rewrite Hc | assumption].
Qed.

Lemma lstrip_all (chars s : string) :
  string_forall (in_chars chars) s = true → lstrip chars s = "".
Proof.
  induction s as [| c s IH]; [reflexivity |]. cbn. intros H.
  apply andb_true_iff in H as [-> Hs]. auto.
Qed.

Lemma normalize_punctuation (w : string) :
  string_forall (in_chars ".,!?") w = true → normalize w = "".
Proof. intros H. unfold normalize, strip. by rewrite lstrip_all. Qed.

Lemma words_of_punctuation (text : string) :
  string_forall (λ c, is_space c || in_chars ".,!?" c) text = true →
  words_of text ⊆ {[ "" ]}.
Proof.
  intros H. apply split_chars in H. unfold words_of.
  intros w Hw. apply elem_of_list_to_set, list_elem_of_fmap in Hw
    as (t & -> & Ht).
  rewrite Forall_forall in H. rewrite (normalize_punctuation t) by auto.
  by apply elem_of_singleton.
Qed.

Lemma lexicons_disjoint : POSITIVE_WORDS ∩ NEGATIVE_WORDS = ∅.
Proof. by vm_compute. Qed.

(** C6, as stated, fails: a word that occurs twice is two tokens of the
    text but counts once, and a word with leading punctuation counts
    although stripping its trailing punctuation leaves it outside the
    lexicon. *)
Lemma score_text_repeated_word :
  (split "reliable, reliable!" = ["reliable,"; "reliable!"]
   ∧ score_text_per_token "reliable, reliable!" = mkSentimentScores 2 0 2
   ∧ score_text "reliable, reliable!" = mkSentimentScores 1 0 1)
  ∧ (score_text_per_token "!Reliable" = mkSentimentScores 0 0 0
     ∧ score_text "!Reliable" = mkSentimentScores 1 0 1).
Proof. repeat split; vm_compute; reflexivity. Qed.

(** C6, amended. The text is split on whitespace and every token is
    stripped of the characters [. , ! ?] at both ends and lower-cased; the
    positive (negative) count is the number of distinct resulting words that
    belong to the positive (negative) word set, and the net score is their
    difference. A text made of whitespace and punctuation only scores
    (0, 0, 0). *)
Theorem score_text_counts_distinct_words (text : string) :
  let tokens := map (λ word, lower (strip ".,!?" word)) (split text) in
  positive (score_text text)
  = Z.of_nat (length (remove_dups (filter (λ w, w ∈ POSITIVE_WORDS) tokens)))
  ∧ negative (score_text text)
    = Z.of_nat (length (remove_dups (filter (λ w, w ∈ NEGATIVE_WORDS) tokens)))
  ∧ net (score_text text)
    = (positive (score_text text) - negative (score_text text))%Z
  ∧ (string_forall (λ c, is_space c || in_chars ".,!?" c) text = true →
     score_text text = mkSentimentScores 0 0 0).
Proof.
  intros tokens. unfold score_text, words_of.
  cbn [positive negative net].
  change (map (λ word, lower (strip ".,!?" word)) (split text)) with tokens.
  rewrite !size_inter_list_to_set.
  repeat split.
  intros H. apply words_of_punctuation in H. unfold words_of in H.
  fold tokens in H.
  assert (∀ lexicon : gset string, "" ∉ lexicon →
            filter (λ w, w ∈ lexicon) tokens = []) as Hnone.
  { intros lexicon Hl.
    destruct (filter (λ w, w ∈ lexicon) tokens) as [| w ws] eqn:E;
      [reflexivity |].
    assert (w ∈ filter (λ w, w ∈ lexicon) tokens) as Hw by (rewrite E; left).
    apply list_elem_of_filter in Hw as [Hin Hw].
    assert (w ∈ list_to_set (C := gset string) tokens) as Hw'
      by (by apply elem_of_list_to_set).
    apply H, elem_of_singleton in Hw'. by subst. }
  rewrite !Hnone; [reflexivity | by vm_compute | by vm_compute].
Qed.

Lemma score_text_counts_distinct_words_witness :
  score_text "  ...  ?!  " = mkSentimentScores 0 0 0.
Proof.
  apply (score_text_counts_distinct_words "  ...  ?!  "). reflexivity.
Defined.

Example score_text_scenario :
  score_text "This car is reliable and smooth but the battery is annoying"
  = mkSentimentScores 2 1 1.
Proof. by vm_compute. Qed.

Example score_text_empty : score_text "" = mkSentimentScores 0 0 0.
Proof. by vm_compute. Qed.

Example score_text_inner_punctuation :
  score_text "(!Reliable" = mkSentimentScores 0 0 0
  ∧ score_text "smooth,quiet" = mkSentimentScores 0 0 0.
Proof. repeat split; by vm_compute. Qed.

End SentimentFacts.

Section SentimentDistinct.

Import Sentiment.
Local Open Scope string_scope.

Lemma words_of_app_space (s u : string) :
  words_of (s ++ " " ++ u) = words_of s ∪ words_of u.
Proof.
  unfold words_of. change (" " ++ u) with (String " " u).
  rewrite split_app_space, map_app. apply list_to_set_app_L.
Qed.

Lemma score_text_words (s u : string) :
  words_of s = words_of u → score_text s = score_text u.
Proof. unfold score_text. by intros ->. Qed.

(** C10. The score is computed from the set of distinct normalized words:
    writing the whole text a second time (so that every word occurs at
    least twice) leaves the three scores unchanged, and the positive and
    negative counts never exceed the sizes of the two lexicons, 7 and 10. *)
Theorem score_text_ignores_repetition (text : string) :
  score_text (text ++ " " ++ text) = score_text text
  ∧ (0 <= positive (score_text text) <= Z.of_nat (size POSITIVE_WORDS))%Z
  ∧ (0 <= negative (score_text text) <= Z.of_nat (size NEGATIVE_WORDS))%Z
  ∧ size POSITIVE_WORDS = 7%nat
  ∧ size NEGATIVE_WORDS = 10%nat.
Proof.
  split; [| split; [| split; [| split]]].
  - apply score_text_words. rewrite words_of_app_space. apply union_idemp_L.
  - cbn [score_text positive].
    pose proof (subseteq_size (words_of text ∩ POSITIVE_WORDS) POSITIVE_WORDS
                  (intersection_subseteq_r _ _)). lia.
  - cbn [score_text negative].
    pose proof (subseteq_size (words_of text ∩ NEGATIVE_WORDS) NEGATIVE_WORDS
                  (intersection_subseteq_r _ _)). lia.
  - by vm_compute.
  - by vm_compute.
Qed.

(** A word that is already in the text can be appended any number of times
    without changing the score. *)
Lemma score_text_append_known_word (text word : string) :
  words_of word ⊆ words_of text →
  score_text (text ++ " " ++ word) = score_text text.
Proof.
  intros H. apply score_text_words. rewrite words_of_app_space.
  rewrite (comm_L (∪)). by apply subseteq_union_1_L.
Qed.

End SentimentDistinct.

(** ** Inference *)

Section Inference.

Import PyNum Preprocess Predict.
Local Open Scope string_scope.
Local Open Scope Q_scope.

Context {Pipeline : Type}.
Variable predict_proba : Pipeline → DataFrame Enriched → outcome Q * Pipeline.

(** What a successful call returns, field by field. *)
Lemma predict_returns self record proba pipeline' :
  predict_proba (pipeline self) (_prepare_frame (frame_of_record record))
    = (Return proba, pipeline') →
  ∃ row cost,
    iloc0_with_risk (_prepare_frame (frame_of_record record)) proba = Return row
    ∧ row_risk_score row = Some proba
    ∧ compute_cost_of_ownership_defaults row = Return cost
    ∧ predict predict_proba self record
      = (Return {| probability := proba;
                   risk_band := _to_risk_band proba;
                   cost_projection := cost;
                   maintenance_timeline := generate_maintenance_timeline row |},
         {| pipeline := pipeline' |}).
Proof.
  intros H. unfold predict. rewrite H.
  destruct record as [r [label |]];
    cbn [frame_of_record fst snd _prepare_frame engineer_domain_features
         append_sentiment_scores map iloc0_with_risk df_rows];
    eexists; eexists; (split; [reflexivity |]); (split; [reflexivity |]);
    (split; [reflexivity |]); reflexivity.
Qed.


End Inference.


(** ** Complaint pattern mining *)

Section MinerFacts.

Import PyNum Preprocess ComplaintAnalysis.
Local Open Scope string_scope.

Variable analyze_words : string → list string.
Variable std : list Q → Q.

Lemma filter_none {A} (P : A → Prop) `{∀ x, Decision (P x)} (l : list A) :
  (∀ x, x ∈ l → ¬ P x) → filter P l = [].
Proof.
  intros Hnone. destruct (filter P l) as [| x xs] eqn:E; [reflexivity |].
  assert (x ∈ filter P l) as Hx by (rewrite E; left).
  apply list_elem_of_filter in Hx as [HP Hx]. by destruct (Hnone x Hx).
Qed.

Lemma tokenize_phrases_needs_repeated_phrase corpus ngram_range :
  (∀ phrase,
     document_frequency phrase
       (map (λ doc, word_ngrams (fst ngram_range) (snd ngram_range)
                      (analyze_words doc)) corpus) < 2)%nat →
  ∃ msg, _tokenize_phrases analyze_words corpus ngram_range
         = Raise (ValueError msg).
Proof.
  intros Hdf. unfold _tokenize_phrases.
  set (docs := map _ corpus) in *.
  destruct (remove_dups (concat docs)) as [| t ts]; [eauto |].
  destruct (length docs <? 2)%nat; [eauto |].
  rewrite filter_none; [eauto |].
  intros phrase _. specialize (Hdf phrase). lia.
Qed.

(** C5. On an empty frame the extraction returns the empty list. On a
    non-empty frame in which no 2- or 3-word phrase occurs in two
    complaints it does not return: the vectorizer's [ValueError]
    propagates. *)
Theorem frequent_patterns_without_repeated_phrase
  (df : DataFrame VehicleRecord) (top_n : nat) :
  (df_rows df = [] →
   identify_common_failure_patterns analyze_words std df top_n = Return [])
  ∧ (df_rows df ≠ [] →
     (∀ phrase,
        document_frequency phrase (phrases_of analyze_words df) < 2)%nat →
     ∃ msg, identify_common_failure_patterns analyze_words std df top_n
            = Raise (ValueError msg)).
Proof.
  unfold identify_common_failure_patterns, phrases_of. split.
  - by intros ->.
  - intros Hne Hdf. destruct (df_rows df) as [| r rows] eqn:E; [done |].
    destruct (tokenize_phrases_needs_repeated_phrase
                (map complaint_text (r :: rows)) (2%nat, 3%nat)) as [msg ->].
    + intros phrase. specialize (Hdf phrase). by rewrite map_map.
    + eauto.
Qed.

(** A frame with a single complaint always makes the extraction fail,
    whatever the analyzer finds in it. *)
Lemma frequent_patterns_single_complaint (r : VehicleRecord) (top_n : nat) :
  ∃ msg, identify_common_failure_patterns analyze_words std
           (Unlabelled [r]) top_n = Raise (ValueError msg).
Proof.
  unfold identify_common_failure_patterns, _tokenize_phrases.
  cbn [df_rows map length Nat.ltb Nat.leb].
  destruct (remove_dups _); eauto.
Qed.

End MinerFacts.

(** The extraction on concrete frames: two complaints without a common
    phrase make it fail, a phrase shared by two complaints is reported. *)
Example frequent_patterns_two_complaints_fail :
  ComplaintAnalysis.identify_common_failure_patterns plain_words std_of_constant
    (Preprocess.Unlabelled
       [ complaint "engine stalls highway" 4; complaint "brake pedal soft" 4 ])
    8
  = Raise (ValueError
      "After pruning, no terms remain. Try a lower min_df or a higher max_df.").
Proof. by vm_compute. Qed.

Example frequent_patterns_shared_phrase :
  ComplaintAnalysis.identify_common_failure_patterns plain_words std_of_constant
    (Preprocess.Unlabelled
       [ complaint "engine stalls highway" 4; complaint "engine stalls cold" 4;
         complaint "brake pedal soft" 4 ])
    8
  = Return [ ComplaintAnalysis.mkPattern "engine stalls" 16.00 ].
Proof. by vm_compute. Qed.

(** * Further properties *)

(** ** Rounding is monotone *)

Section RoundingOrder.

Import PyNum.
Local Open Scope Q_scope.

(** The rounded integer is within one half of [x], and a tie goes to an
    even integer. *)
Lemma round_half_even_tie (x : Q) :
  let a := round_half_even x in
  x - (1 # 2) <= inject_Z a ∧ inject_Z a <= x + (1 # 2)
  ∧ (inject_Z a == x + (1 # 2) ∨ inject_Z a == x - (1 # 2) → Z.even a = true).
Proof.
  destruct x as [n d]. unfold round_half_even. cbn [Qnum Qden].
  pose proof (Z.div_mod n (Zpos d) ltac:(lia)) as Hdm.
  pose proof (Z.mod_pos_bound n (Zpos d) ltac:(lia)) as Hb.
  set (q := (n / Zpos d)%Z) in *. set (r := (n mod Zpos d)%Z) in *.
  assert (∀ a : Z, (a = q ∨ a = q + 1)%Z →
          (inject_Z a == (n # d) + (1 # 2) ↔ (2 * (a - q) * Zpos d = 2 * r + Zpos d)%Z)
          ∧ (inject_Z a == (n # d) - (1 # 2) ↔ (2 * (a - q) * Zpos d = 2 * r - Zpos d)%Z)
          ∧ ((n # d) - (1 # 2) <= inject_Z a ↔ (2 * r - Zpos d <= 2 * (a - q) * Zpos d)%Z)
          ∧ (inject_Z a <= (n # d) + (1 # 2) ↔ (2 * (a - q) * Zpos d <= 2 * r + Zpos d)%Z))
    as Hchar.
  { intros a _. unfold Qeq, Qle, Qminus, Qplus, Qopp, inject_Z.
    cbn [Qnum Qden]. rewrite !Pos2Z.inj_mul. repeat split; intros; nia. }
  destruct (Z.compare_spec (2 * r) (Zpos d)) as [E | L | G].
  - destruct (Z.even q) eqn:Hq.
    + destruct (Hchar q ltac:(lia)) as (H1 & H2 & H3 & H4).
      split; [apply H3; lia |]. split; [apply H4; lia |]. done.
    + destruct (Hchar (q + 1)%Z ltac:(lia)) as (H1 & H2 & H3 & H4).
      split; [apply H3; lia |]. split; [apply H4; lia |]. intros _.
      rewrite Z.even_add, Hq. reflexivity.
  - destruct (Hchar q ltac:(lia)) as (H1 & H2 & H3 & H4).
    split; [apply H3; lia |]. split; [apply H4; lia |].
    intros [H | H]; [apply H1 in H | apply H2 in H]; lia.
  - destruct (Hchar (q + 1)%Z ltac:(lia)) as (H1 & H2 & H3 & H4).
    split; [apply H3; lia |]. split; [apply H4; lia |].
    intros [H | H]; [apply H1 in H | apply H2 in H]; lia.
Qed.

Lemma round_half_even_mono (x y : Q) :
  x <= y → (round_half_even x <= round_half_even y)%Z.
Proof.
  intros Hxy.
  destruct (round_half_even_tie x) as (Hx1 & Hx2 & Hxe).
  destruct (round_half_even_tie y) as (Hy1 & Hy2 & Hye).
  cbv zeta in *.
  set (a := round_half_even x) in *. set (b := round_half_even y) in *.
  destruct (Z_le_gt_dec a b) as [Hle | Hgt]; [exact Hle | exfalso].
  assert (inject_Z b + 1 <= inject_Z a) as Hab.
  { change 1 with (inject_Z 1). rewrite <- inject_Z_plus, <- Zle_Qle. lia. }
  assert (Z.even a = true) as Ha by (apply Hxe; left; lra).
  assert (Z.even b = true) as Hb by (apply Hye; right; lra).
  assert (inject_Z a == inject_Z (b + 1)) as Heq
    by (rewrite inject_Z_plus; change (inject_Z 1) with 1; lra).
  apply (proj1 (inject_Z_injective _ _)) in Heq.
  rewrite Heq, Z.even_add, Hb in Ha. discriminate.
Qed.

Lemma round2_mono (x y : Q) : x <= y → round2 x <= round2 y.
Proof.
  intros H. unfold round2.
  assert (x * 100 <= y * 100) as H' by lra.
  apply round_half_even_mono in H'.
  unfold Qle. cbn [Qnum Qden]. lia.
Qed.

End RoundingOrder.

(** ** Cost projection: signs and monotonicity *)

Section CostProjectionOrder.

Import PyNum Preprocess.
Local Open Scope string_scope.
Local Open Scope Q_scope.

Lemma base_maintenance_bounds (row : Row) :
  75 <= base_maintenance row ∧ base_maintenance row <= 380.
Proof.
  unfold base_maintenance. rewrite COST_FACTORS_get. unfold cost_table.
  repeat match goal with
         | |- context [String.eqb ?a ?b] => destruct (String.eqb a b)
         end; split; lra.
Qed.

Lemma fuel_cost_projection_raw_nonneg (am fp eff : Q) :
  0 <= am → 0 <= fp → 0 < eff → 0 <= fuel_cost_projection_raw am fp eff.
Proof.
  intros Ham Hfp Heff. unfold fuel_cost_projection_raw, Qdiv.
  apply Qmult_le_0_compat; [| exact Hfp].
  apply Qmult_le_0_compat; [exact Ham |].
  apply Qinv_le_0_compat. lra.
Qed.

(** With a non-negative prior-year maintenance cost and risk score (given
    or defaulted), non-negative mileage and fuel price and a positive fuel
    efficiency, the projection is returned and none of its figures is
    negative; depreciation and total are at least 500. *)
Theorem cost_projection_nonnegative (row : Row) (am fp eff : Q) :
  0 <= default 600 (row_maintenance_cost_last_year row) →
  0 <= default 0.2 (row_risk_score row) →
  0 <= am → 0 <= fp → 0 < eff →
  ∃ out,
    compute_cost_of_ownership row am fp eff = Return out
    ∧ 0 <= maintenance_projection out
    ∧ 0 <= fuel_cost_projection out
    ∧ 500 <= depreciation_estimate out
    ∧ 500 <= total_projection out.
Proof.
  intros Hm Hr Ham Hfp Heff.
  eexists. split; [apply compute_cost_of_ownership_returns; lra |].
  cbn [maintenance_projection fuel_cost_projection depreciation_estimate
       total_projection].
  pose proof (base_maintenance_bounds row) as [Hb _].
  pose proof (fuel_cost_projection_raw_nonneg am fp eff Ham Hfp Heff) as Hf.
  assert (0 <= maintenance_projection_raw row) as Hmr.
  { unfold maintenance_projection_raw, risk_multiplier.
    apply Qmult_le_0_compat; lra. }
  pose proof (py_max_lower 500
                (0.12 * default 1500 (row_total_cost_last_year row))) as Hd.
  fold (depreciation_raw row) in Hd.
  split; [apply (round2_lower 0), Hmr |].
  split; [apply (round2_lower 0), Hf |].
  split; [apply (round2_lower 500), Hd |].
  apply (round2_lower 500). change (inject_Z 500) with 500. lra.
Qed.

Lemma cost_projection_nonnegative_witness :
  ∃ out,
    compute_cost_of_ownership row_602 12000 3.5 26 = Return out
    ∧ 0 <= maintenance_projection out
    ∧ 0 <= fuel_cost_projection out
    ∧ 500 <= depreciation_estimate out
    ∧ 500 <= total_projection out.
Proof.
  apply (cost_projection_nonnegative row_602 12000 3.5 26);
    vm_compute; congruence.
Defined.

(** Raising the risk score of a record whose prior-year maintenance cost is
    not negative never lowers the maintenance projection or the total, and
    leaves the fuel and depreciation figures as they are. *)
Theorem cost_projection_monotone_in_risk
  (action : option string) (cost total : option Q) (r1 r2 am fp eff : Q) :
  0 <= default 600 cost → r1 <= r2 → ¬ eff == 0 →
  ∃ out1 out2,
    compute_cost_of_ownership (mkRow action (Some r1) cost total) am fp eff
      = Return out1
    ∧ compute_cost_of_ownership (mkRow action (Some r2) cost total) am fp eff
      = Return out2
    ∧ maintenance_projection out1 <= maintenance_projection out2
    ∧ total_projection out1 <= total_projection out2
    ∧ fuel_cost_projection out1 = fuel_cost_projection out2
    ∧ depreciation_estimate out1 = depreciation_estimate out2.
Proof.
  intros Hc Hr Heff. eexists. eexists.
  split; [apply compute_cost_of_ownership_returns, Heff |].
  split; [apply compute_cost_of_ownership_returns, Heff |].
  cbn [maintenance_projection fuel_cost_projection depreciation_estimate
       total_projection].
  assert (maintenance_projection_raw (mkRow action (Some r1) cost total)
          <= maintenance_projection_raw (mkRow action (Some r2) cost total))
    as Hraw.
  { unfold maintenance_projection_raw, risk_multiplier, base_maintenance.
    cbn [row_maintenance_action row_risk_score row_maintenance_cost_last_year
         default].
    pose proof (base_maintenance_bounds (mkRow action None cost total))
      as [Hb _].
    unfold base_maintenance in Hb. cbn [row_maintenance_action] in Hb.
    set (b := default 150 _) in *. set (c := default 600 cost) in *.
    assert (0 < c + b) as Hpos by lra.
    apply (proj2 (Qmult_le_l _ _ (c + b) Hpos)). unfold id. lra. }
  split; [apply round2_mono, Hraw |].
  split; [| split; reflexivity].
  apply round2_mono. unfold depreciation_raw.
  cbn [row_total_cost_last_year]. lra.
Qed.

Lemma cost_projection_monotone_in_risk_witness :
  ∃ out1 out2,
    compute_cost_of_ownership
      (mkRow (Some "oil change") (Some 0.2) (Some 600) (Some 2000))
      12000 3.5 26 = Return out1
    ∧ compute_cost_of_ownership
      (mkRow (Some "oil change") (Some 0.7) (Some 600) (Some 2000))
      12000 3.5 26 = Return out2
    ∧ maintenance_projection out1 <= maintenance_projection out2
    ∧ total_projection out1 <= total_projection out2
    ∧ fuel_cost_projection out1 = fuel_cost_projection out2
    ∧ depreciation_estimate out1 = depreciation_estimate out2.
Proof.
  apply (cost_projection_monotone_in_risk (Some "oil change") (Some 600)
           (Some 2000) 0.2 0.7 12000 3.5 26); vm_compute; congruence.
Defined.

End CostProjectionOrder.

(** ** Domain features: bounds, and training against serving *)

Section DomainFeaturesMore.

Import PyNum Preprocess Predict Callers.
Local Open Scope Q_scope.




End DomainFeaturesMore.

(** ** The interval between milestones *)

Section TimelineInterval.

Import PyNum Preprocess.
Local Open Scope Q_scope.









End TimelineInterval.

(** ** Inference: failures, bands against timelines, comparison *)

Section InferenceMore.

Import PyNum Preprocess Predict Callers.
Local Open Scope string_scope.
Local Open Scope Q_scope.

Context {Pipeline : Type}.
Variable predict_proba : Pipeline → DataFrame Enriched → outcome Q * Pipeline.

(** The row that [predict] hands to the cost projector and the timeline
    synthesizer. *)
Lemma predict_outcome
  (self : ReliabilityPredictor) (record : InputRecord) :
  let r := fst record in
  let row proba :=
    {| row_maintenance_action := Some (maintenance_action r);
       row_risk_score := Some proba;
       row_maintenance_cost_last_year := Some (maintenance_cost_last_year r);
       row_total_cost_last_year :=
         Some (maintenance_cost_last_year r + fuel_cost_last_year r) |} in
  match predict_proba (pipeline self) (_prepare_frame (frame_of_record record))
  with
  | (Raise e, _) => fst (predict predict_proba self record) = Raise e
  | (Return proba, _) =>
      ∃ cost,
        compute_cost_of_ownership (row proba) 12000 3.5 26 = Return cost
        ∧ fst (predict predict_proba self record)
          = Return {| probability := proba;
                      risk_band := _to_risk_band proba;
                      cost_projection := cost;
                      maintenance_timeline :=
                        generate_maintenance_timeline (row proba) |}
  end.
Proof.
  intros r row. unfold predict.
  destruct (predict_proba _ _) as [[proba | e] p']; [| reflexivity].
  destruct record as [r' [label |]]; subst r row; cbn [fst];
    eexists; (split; [reflexivity |]); reflexivity.
Qed.

(** The timeline has four entries above a risk score of 0.6 and three
    otherwise. *)
Lemma timeline_length (row : Row) :
  length (generate_maintenance_timeline row)
  = if Qle_bool (default 0.25 (row_risk_score row)) 0.6 then 3%nat else 4%nat.
Proof.
  unfold generate_maintenance_timeline.
  destruct (Qle_bool _ 0.6); reflexivity.
Qed.



(** The band and the timeline of one result agree: a High band always
    comes with the four-entry timeline, a Low band with the three-entry
    one, and a Moderate band has four entries exactly when the probability
    exceeds 0.6. *)
Theorem risk_band_and_timeline
  (self : ReliabilityPredictor) (record : InputRecord)
  (result : PredictionResult) :
  fst (predict predict_proba self record) = Return result →
  (risk_band result = "High" → length (maintenance_timeline result) = 4%nat)
  ∧ (risk_band result = "Low" → length (maintenance_timeline result) = 3%nat)
  ∧ (risk_band result = "Moderate" →
     (length (maintenance_timeline result) = 4%nat ↔ 0.6 < probability result)
     ∧ (length (maintenance_timeline result) = 3%nat
        ↔ probability result <= 0.6)).
Proof.
  intros H.
  pose proof (predict_outcome self record) as Hp.
  cbv zeta in Hp.
  destruct (predict_proba _ _) as [[proba | e] p'];
    [| rewrite H in Hp; discriminate].
  destruct Hp as (cost & _ & Hp). rewrite H in Hp. injection Hp as ->.
  cbn [risk_band probability maintenance_timeline].
  rewrite timeline_length. cbn [row_risk_score default]. unfold id.
  destruct (to_risk_band_cases proba) as [[Hb ->] | [(Hb1 & Hb2 & ->) | [Hb ->]]];
    destruct (Qle_bool proba 0.6) eqn:E;
    try (apply Qle_bool_iff in E);
    try (assert (¬ proba <= 0.6) by (rewrite <- Qle_bool_iff; congruence));
    (split; [| split]); try discriminate; try done;
    try (intros; exfalso; lra);
    intros _; split; split; try done; try discriminate; try lra;
    intros; exfalso; lra.
Qed.


End InferenceMore.

Lemma risk_band_and_timeline_witness :
  let result :=
    {| Predict.probability := 0.42%Q;
       Predict.risk_band := "Moderate";
       Predict.cost_projection :=
         Preprocess.mkCostProjection 828.13 1615.38 500.00 2943.52;
       Predict.maintenance_timeline :=
         [ Preprocess.mkMilestone "4 months"
             "Comprehensive inspection & fluid checks";
           Preprocess.mkMilestone "8 months"
             "Predictive component diagnostics";
           Preprocess.mkMilestone "12 months"
             "System software updates & alignment" ] |} in
  (Predict.risk_band result = "High"%string →
   length (Predict.maintenance_timeline result) = 4%nat)
  ∧ (Predict.risk_band result = "Low"%string →
     length (Predict.maintenance_timeline result) = 3%nat)
  ∧ (Predict.risk_band result = "Moderate"%string →
     (length (Predict.maintenance_timeline result) = 4%nat
      ↔ (0.6 < Predict.probability result)%Q)
     ∧ (length (Predict.maintenance_timeline result) = 3%nat
        ↔ (Predict.probability result <= 0.6)%Q)).
Proof.
  apply (risk_band_and_timeline constant_classifier
           (Predict.mkReliabilityPredictor 0.42%Q) sample_record).
  vm_compute. reflexivity.
Defined.


(** ** Sentiment: letter case, concatenation, the enriched frame *)

Section SentimentMore.

Import Sentiment Preprocess Predict.
Local Open Scope string_scope.

Lemma lower_char_facts (c : ascii) :
  is_space (lower_char c) = is_space c
  ∧ in_chars ".,!?" (lower_char c) = in_chars ".,!?" c
  ∧ lower_char (lower_char c) = lower_char c.
Proof. destruct c as [[] [] [] [] [] [] [] []]; repeat split. Qed.

Lemma lower_idempotent (s : string) : lower (lower s) = lower s.
Proof.
  induction s as [| c s IH]; [reflexivity |]. cbn [lower].
  rewrite IH. by destruct (lower_char_facts c) as (_ & _ & ->).
Qed.

Lemma starts_word_lower (s : string) : starts_word (lower s) = starts_word s.
Proof.
  destruct s as [| c s]; [reflexivity |]. cbn [lower starts_word].
  by destruct (lower_char_facts c) as (-> & _).
Qed.

Lemma split_lower (s : string) : split (lower s) = map lower (split s).
Proof.
  induction s as [| c s IH]; [reflexivity |]. cbn [lower split].
  destruct (lower_char_facts c) as (-> & _).
  rewrite starts_word_lower, IH.
  destruct (is_space c); [reflexivity |].
  destruct (starts_word s); [| reflexivity].
  destruct (split s); reflexivity.
Qed.

Lemma lstrip_lower (s : string) :
  lstrip ".,!?" (lower s) = lower (lstrip ".,!?" s).
Proof.
  induction s as [| c s IH]; [reflexivity |]. cbn [lower lstrip].
  destruct (lower_char_facts c) as (_ & -> & _).
  destruct (in_chars ".,!?" c); [exact IH | reflexivity].
Qed.

Lemma rstrip_lower (s : string) :
  rstrip ".,!?" (lower s) = lower (rstrip ".,!?" s).
Proof.
  induction s as [| c s IH]; [reflexivity |]. cbn [lower rstrip].
  rewrite IH. destruct (lower_char_facts c) as (_ & -> & _).
  destruct (rstrip ".,!?" s); cbn [lower];
    [destruct (in_chars ".,!?" c) |]; reflexivity.
Qed.

Lemma normalize_lower (w : string) : normalize (lower w) = normalize w.
Proof.
  unfold normalize, strip.
  by rewrite lstrip_lower, rstrip_lower, lower_idempotent.
Qed.

Lemma words_of_lower (text : string) : words_of (lower text) = words_of text.
Proof.
  unfold words_of. rewrite split_lower, map_map. f_equal.
  apply map_ext. intros w. apply normalize_lower.
Qed.

(** Scoring ignores letter case: two texts with the same lower-cased form
    get the same three scores. *)
Theorem score_text_case_insensitive (s u : string) :
  lower s = lower u → score_text s = score_text u.
Proof.
  intros H. apply score_text_words.
  by rewrite <- (words_of_lower s), <- (words_of_lower u), H.
Qed.

Lemma score_text_case_insensitive_witness :
  score_text "Reliable but NOISY" = score_text "reliable BUT noisy".
Proof. apply score_text_case_insensitive. reflexivity. Defined.

Lemma size_inter_union (X Y lexicon : gset string) :
  (size (X ∩ lexicon) ≤ size ((X ∪ Y) ∩ lexicon))%nat
  ∧ (size ((X ∪ Y) ∩ lexicon) ≤ size (X ∩ lexicon) + size (Y ∩ lexicon))%nat.
Proof.
  split.
  - apply subseteq_size. intros w. rewrite !elem_of_intersection,
      elem_of_union. tauto.
  - assert ((X ∪ Y) ∩ lexicon = (X ∩ lexicon) ∪ (Y ∩ lexicon)) as ->.
    { apply set_eq. intros w. rewrite !elem_of_union, !elem_of_intersection,
        elem_of_union. tauto. }
    rewrite size_union_alt.
    pose proof (subseteq_size ((Y ∩ lexicon) ∖ (X ∩ lexicon)) (Y ∩ lexicon))
      as H.
    assert ((Y ∩ lexicon) ∖ (X ∩ lexicon) ⊆ Y ∩ lexicon) as Hsub
      by (intros w; rewrite elem_of_difference; tauto).
    specialize (H Hsub). lia.
Qed.

(** Joining two texts with a space: the order of the two does not matter,
    neither count is lower than that of the first text alone, and neither
    exceeds the sum of the counts of the two texts. *)
Theorem score_text_of_joined_texts (s u : string) :
  score_text (s ++ " " ++ u) = score_text (u ++ " " ++ s)
  ∧ (positive (score_text s) <= positive (score_text (s ++ " " ++ u))
     <= positive (score_text s) + positive (score_text u))%Z
  ∧ (negative (score_text s) <= negative (score_text (s ++ " " ++ u))
     <= negative (score_text s) + negative (score_text u))%Z.
Proof.
  split.
  - apply score_text_words. rewrite !words_of_app_space. apply (comm_L (∪)).
  - unfold score_text. cbn [positive negative]. rewrite words_of_app_space.
    pose proof (size_inter_union (words_of s) (words_of u) POSITIVE_WORDS).
    pose proof (size_inter_union (words_of s) (words_of u) NEGATIVE_WORDS).
    lia.
Qed.



End SentimentMore.

(** ** Complaint pattern mining: what a returned list looks like *)

Section MinerResult.

Import PyNum Preprocess ComplaintAnalysis.
Local Open Scope string_scope.

Variable analyze_words : string → list string.
Variable std : list Q → Q.

Lemma insert_term_perm (t : string) (l : list string) :
  insert_term t l ≡ₚ t :: l.
Proof.
  induction l as [| u l IH]; [reflexivity |]. cbn [insert_term].
  destruct (String.leb t u); [reflexivity |].
  rewrite IH. apply Permutation_swap.
Qed.

Lemma sort_terms_perm (l : list string) : sort_terms l ≡ₚ l.
Proof.
  unfold sort_terms. induction l as [| t l IH]; [reflexivity |].
  cbn [foldr]. by rewrite insert_term_perm, IH.
Qed.

Lemma insert_scored_perm (x : string * Q) (l : list (string * Q)) :
  insert_scored x l ≡ₚ x :: l.
Proof.
  induction l as [| y l IH]; [reflexivity |]. cbn [insert_scored].
  destruct (Qle_bool (snd y) (snd x)); [reflexivity |].
  rewrite IH. apply Permutation_swap.
Qed.

Lemma ranked_perm (l : list (string * Q)) : foldr insert_scored [] l ≡ₚ l.
Proof.
  induction l as [| x l IH]; [reflexivity |].
  cbn [foldr]. by rewrite insert_scored_perm, IH.
Qed.




(** What a successful vectorizer call returns: the phrases found in at
    least two documents, without repetition and in sorted order, each with
    its number of occurrences. *)
Lemma tokenize_phrases_returns corpus ngram_range counter :
  _tokenize_phrases analyze_words corpus ngram_range = Return counter →
  let docs :=
    map (λ doc, word_ngrams (fst ngram_range) (snd ngram_range)
                  (analyze_words doc)) corpus in
  counter ≠ []
  ∧ NoDup (map fst counter)
  ∧ Forall (λ tc, (2 ≤ document_frequency (fst tc) docs)%nat
                  ∧ snd tc = inject_Z (Z.of_nat (term_count (fst tc) docs)))
           counter.
Proof.
  unfold _tokenize_phrases. intros H. cbv zeta in *.
  set (docs := map _ corpus) in *.
  destruct (remove_dups (concat docs)) as [| t ts] eqn:Evoc; [discriminate |].
  destruct (length docs <? 2)%nat; [discriminate |].
  pose proof (NoDup_remove_dups (concat docs)) as Hnd. rewrite Evoc in Hnd.
  set (kept := filter (λ t, (2 ≤ document_frequency t docs)%nat) (t :: ts))
    in *.
  assert (NoDup kept) as Hkept by (by apply NoDup_filter).
  assert (Forall (λ t, (2 ≤ document_frequency t docs)%nat) kept) as Hdf.
  { apply Forall_forall. intros u Hu.
    by apply list_elem_of_filter in Hu as [Hu _]. }
  destruct kept as [| k ks] eqn:Ek; [discriminate |].
  injection H as <-. rewrite map_map. cbn [fst]. rewrite map_id.
  change (insert_term k (sort_terms ks)) with (sort_terms (k :: ks)).
  split; [| split].
  - intros Hnil. apply (f_equal length) in Hnil.
    rewrite length_map, (Permutation_length (sort_terms_perm (k :: ks)))
      in Hnil. discriminate.
  - by rewrite sort_terms_perm.
  - apply Forall_map, Forall_forall. intros u Hu. cbn [fst snd].
    rewrite sort_terms_perm in Hu. rewrite Forall_forall in Hdf. auto.
Qed.

(** The list returned on success: at most [top_n] patterns, no pattern
    twice, every pattern a phrase found in at least two complaints, and at
    least one pattern unless the frame is empty or [top_n] is zero. *)
Theorem frequent_patterns_are_repeated_phrases
  (df : DataFrame VehicleRecord) (top_n : nat) (patterns : list Pattern) :
  identify_common_failure_patterns analyze_words std df top_n
    = Return patterns →
  (length patterns ≤ top_n)%nat
  ∧ NoDup (map pattern patterns)
  ∧ Forall (λ p, (2 ≤ document_frequency (pattern p)
                        (phrases_of analyze_words df))%nat) patterns
  ∧ (df_rows df ≠ [] → top_n ≠ 0%nat → patterns ≠ []).
Proof.
  unfold identify_common_failure_patterns, phrases_of. intros H.
  destruct (df_rows df) as [| r rows] eqn:Erows.
  { injection H as <-. repeat split; try constructor; try done. cbn. lia. }
  destruct (_tokenize_phrases _ _ _) as [counter | e] eqn:Etok;
    [| discriminate].
  apply tokenize_phrases_returns in Etok. cbv zeta in Etok.
  rewrite map_map in Etok. cbn [fst snd] in Etok.
  destruct Etok as (Hne & Hnd & Hdf).
  injection H as <-. unfold most_common.
  set (w := (mean _ / py_max _ _)%Q).
  set (weighted := map (λ pc, (fst pc, (snd pc * w)%Q)) counter).
  assert (map fst weighted = map fst counter) as Hfst
    by (unfold weighted; by rewrite map_map).
  assert (map fst (foldr insert_scored [] weighted) ≡ₚ map fst counter)
    as Hperm by (by rewrite ranked_perm, Hfst).
  rewrite map_map. cbn [pattern].
  split; [| split; [| split]].
  - rewrite length_map, length_take. lia.
  - change (NoDup (map fst (take top_n (foldr insert_scored [] weighted)))).
    rewrite <- firstn_map.
    apply (sublist_NoDup _ (map fst (foldr insert_scored [] weighted)));
      [by rewrite Hperm | apply sublist_take].
  - apply Forall_map, Forall_take, Forall_forall. intros ps Hps. cbn [pattern].
    assert (fst ps ∈ map fst counter) as Hin.
    { rewrite <- Hperm. by apply list_elem_of_fmap_2. }
    apply list_elem_of_fmap in Hin as (tc & -> & Htc).
    rewrite Forall_forall in Hdf. by destruct (Hdf tc Htc).
  - intros _ Hn Hnil. apply (f_equal length) in Hnil.
    rewrite length_map, length_take,
      (Permutation_length (ranked_perm weighted)) in Hnil.
    unfold weighted in Hnil. rewrite length_map in Hnil.
    destruct counter; [done |]. cbn in Hnil. lia.
Qed.


End MinerResult.

Lemma frequent_patterns_are_repeated_phrases_witness :
  let df :=
    Preprocess.Unlabelled
      [ complaint "engine stalls highway" 4; complaint "engine stalls cold" 4;
        complaint "brake pedal soft" 4 ] in
  let patterns := [ ComplaintAnalysis.mkPattern "engine stalls" 16.00 ] in
  (length patterns ≤ 8)%nat
  ∧ NoDup (map ComplaintAnalysis.pattern patterns)
  ∧ Forall (λ p, (2 ≤ ComplaintAnalysis.document_frequency
                        (ComplaintAnalysis.pattern p)
                        (ComplaintAnalysis.phrases_of plain_words df))%nat)
           patterns
  ∧ (Preprocess.df_rows df ≠ [] → 8%nat ≠ 0%nat → patterns ≠ []).
Proof.
  apply (frequent_patterns_are_repeated_phrases plain_words std_of_constant).
  vm_compute. reflexivity.
Defined.

